(** * Verification of the gobayeux v2 client

    A shallow embedding of the Bayeux protocol client
    ([v2/bayeux_transport_websocket.go], type [BayeuxClientT]), of its two
    transports ([v2/bayeux_transport_http.go],
    [v2/bayeux_transport_websocket.go]) and of the session loop
    ([v2/client.go]), followed by the properties established about them.

    Go values are modelled as follows.
    - A Go result pair [([]Message, error)] is a pair of a list and an
      [option error]; the nil slice and the empty slice are both [[]].
    - A call that does not return normally is a [Panicked] or a [Blocked]
      outcome.
    - A Go channel is a record of its capacity, its buffered values and its
      closed flag.
    - The protocol client talks to its transport through an explicit
      [Request] node, so what is handed to the transport and what the
      client does with each possible reply are both observable. *)

From Stdlib Require Import String List ZArith Lia Bool.
From stdpp Require Import base option list strings gmap.

Local Open Scope string_scope.
Local Open Scope Z_scope.
Local Open Scope list_scope.

(** ** Channels names and constants *)

(** Modelled from the spec: the [Channel] type and the reserved meta-channel
    names live in a file that is not part of the sources at hand; a channel
    is its name, compared by exact string match, and [emptyChannel] is the
    zero value of the type. *)
Definition Channel : Type := string.

Definition emptyChannel : Channel := "".
Definition MetaHandshake : Channel := "/meta/handshake".
Definition MetaConnect : Channel := "/meta/connect".
Definition MetaDisconnect : Channel := "/meta/disconnect".
Definition MetaSubscribe : Channel := "/meta/subscribe".
Definition MetaUnsubscribe : Channel := "/meta/unsubscribe".

(** Modelled from the spec: the two transport-type constants returned by
    [transportType()]. *)
Definition ConnectionTypeLongPolling : string := "long-polling".
Definition ConnectionTypeWebsocket : string := "websocket".

Definition bytes : Type := list Byte.byte.

(** ** Messages *)

(** Modelled from the spec: the advice block of a message (reconnect
    directive and interval in milliseconds). *)
Record Advice : Type := mkAdvice {
  Reconnect : string;
  Interval : Z;
}.

(** Modelled from the spec: one protocol envelope, an immutable value
    record.  Only the fields the embedded code reads or the request
    builders write are kept. *)
Record Message : Type := mkMessage {
  mChannel : Channel;
  mClientID : string;
  mSuccessful : bool;
  mError : string;
  mAdvice : option Advice;
  mVersion : string;
  mSupportedConnectionTypes : list string;
  mConnectionType : string;
  mSubscription : list Channel;
  mID : string;
}.

(** The zero value [var message Message]. *)
Definition zeroMessage : Message :=
  mkMessage emptyChannel "" false "" None "" [] "" [] "".

(** Modelled from the spec: [Advice.ShouldHandshake], true when the
    reconnect directive is "handshake"; an absent advice block advises
    nothing. *)
Definition ShouldHandshake (a : option Advice) : bool :=
  match a with
  | Some adv => bool_decide (Reconnect adv = "handshake")
  | None => false
  end.

(** Modelled from the spec: [Advice.IntervalAsDuration], the advised
    interval in milliseconds. *)
Definition IntervalAsDuration (a : option Advice) : Z :=
  match a with
  | Some adv => Interval adv
  | None => 0
  end.

(** ** Connection state machine *)

(** Modelled from the spec: the connection state machine is not part of the
    sources at hand; states, events and legal transitions follow the
    component design of the specification. *)
Inductive ConnectionState : Type :=
| UNCONNECTED | CONNECTING | CONNECTED | DISCONNECTED.

Inductive Event : Type :=
| handshakeSent | successfullyConnected | disconnectSent.

(** ** Errors *)

#[warnings="-register-all"]
Inductive error : Type :=
| ErrClientNotConnected
| ErrTooManyMessages
| ErrBadChannel
| ErrFailedToConnect
| ErrInvalidTransition (from : ConnectionState) (ev : Event)
| HandshakeFailedError (cause : error)
| HandshakeError (msg : string)
| ConnectionFailedError (cause : error)
| SubscriptionFailedError (chs : list Channel) (cause : error)
| SubscribeError (msg : string)
| UnsubscribeFailedError (chs : list Channel) (cause : error)
| UnsubscribeError (msg : string)
| DisconnectFailedError (cause : option error)
| AlreadyRegisteredError (ext : nat)
| BadResponseError (code : Z) (status : string) (body : option bytes)
| ErrAlreadySubscribed (ch : Channel)
| ErrNotSubscribed (ch : Channel)
| ErrContext (why : string)
| ErrOther (why : string).

(** The result pair [([]Message, error)] of the protocol calls. *)
Definition goret : Type := list Message * option error.

(** How a Go call ends: it returns, it panics, or it blocks forever. *)
Inductive outcome (A : Type) : Type :=
| Returned (a : A)
| Panicked (why : string)
| Blocked.
Arguments Returned {A} a.
Arguments Panicked {A} why.
Arguments Blocked {A}.

Module ConnectionStateMachine.

Definition t : Type := ConnectionState.

Definition NewConnectionStateMachine : t := UNCONNECTED.

Definition ProcessEvent (s : t) (e : Event) : error + t :=
  match e, s with
  | handshakeSent, UNCONNECTED => inr CONNECTING
  | handshakeSent, CONNECTED => inr CONNECTING
  | successfullyConnected, CONNECTING => inr CONNECTED
  | disconnectSent, UNCONNECTED => inr DISCONNECTED
  | disconnectSent, CONNECTING => inr DISCONNECTED
  | disconnectSent, CONNECTED => inr DISCONNECTED
  | _, _ => inl (ErrInvalidTransition s e)
  end.

Definition IsConnected (s : t) : bool :=
  match s with CONNECTED => true | _ => false end.

End ConnectionStateMachine.

(** ** The protocol client and its transport *)

(** A protocol call either finishes with a value or hands a batch to the
    transport ([b.client.request(ctx, ms)]) and continues with whatever the
    transport returns. *)
Inductive proto (A : Type) : Type :=
| Ret (a : A)
| Request (ms : list Message) (k : goret -> proto A).
Arguments Ret {A} a.
Arguments Request {A} ms k.

Fixpoint bind {A B : Type} (p : proto A) (f : A -> proto B) : proto B :=
  match p with
  | Ret a => f a
  | Request ms k => Request ms (fun r => bind (k r) f)
  end.

#[global] Instance proto_ret : MRet proto := @Ret.
#[global] Instance proto_bind : MBind proto := fun A B f p => bind p f.

(** The batches handed to the transport, in order, when every request is
    answered by [reply]. *)
Fixpoint sent {A : Type} (p : proto A) (reply : list Message -> goret)
  : list (list Message) :=
  match p with
  | Ret _ => []
  | Request ms k => ms :: sent (k (reply ms)) reply
  end.

(** The value of the call when every request is answered by [reply]. *)
Fixpoint result {A : Type} (p : proto A) (reply : list Message -> goret) : A :=
  match p with
  | Ret a => a
  | Request ms k => result (k (reply ms)) reply
  end.

(** The first batch the call hands to the transport, if any. *)
Definition pending {A : Type} (p : proto A) : option (list Message) :=
  match p with
  | Ret _ => None
  | Request ms _ => Some ms
  end.

(** The call after the transport answered its first request with [r]. *)
Definition resume {A : Type} (p : proto A) (r : goret) : proto A :=
  match p with
  | Ret a => Ret a
  | Request _ k => k r
  end.

(** Modelled from the spec: an extension is a pair of hooks; each hook
    receives a pointer to a message and may write through it, which is what
    the two functions record.  [extId] stands for the identity of the
    instance compared by [UseExtension]. *)
Record MessageExtender : Type := mkExt {
  extId : nat;
  Outgoing : Message -> Message;
  Incoming : Message -> Message;
}.

(** Modelled from the spec: the request builders are not part of the
    sources at hand.  Each one accumulates the fields it is given and
    [Build] yields the one-message batch that carries them on the
    operation's meta-channel. *)
Module HandshakeRequestBuilder.
Record t : Type := mk { version : string; supportedConnectionTypes : list string }.
Definition NewHandshakeRequestBuilder : t := mk "" [].
Definition AddVersion (b : t) (v : string) : error + t :=
  inr (mk v (supportedConnectionTypes b)).
Definition AddSupportedConnectionType (b : t) (ct : string) : error + t :=
  inr (mk (version b) (supportedConnectionTypes b ++ [ct])).
Definition Build (b : t) : error + list Message :=
  inr [mkMessage MetaHandshake "" false "" None (version b)
         (supportedConnectionTypes b) "" [] ""].
End HandshakeRequestBuilder.

Module ConnectRequestBuilder.
Record t : Type := mk { clientID : string; connectionType : string }.
Definition NewConnectRequestBuilder : t := mk "" "".
Definition AddClientID (b : t) (id : string) : t := mk id (connectionType b).
Definition AddConnectionType (b : t) (ct : string) : error + t :=
  inr (mk (clientID b) ct).
Definition Build (b : t) : error + list Message :=
  inr [mkMessage MetaConnect (clientID b) false "" None "" []
         (connectionType b) [] ""].
End ConnectRequestBuilder.

Module SubscribeRequestBuilder.
Record t : Type := mk { clientID : string; subscriptions : list Channel }.
Definition NewSubscribeRequestBuilder : t := mk "" [].
Definition AddClientID (b : t) (id : string) : t := mk id (subscriptions b).
Definition AddSubscription (b : t) (c : Channel) : error + t :=
  inr (mk (clientID b) (subscriptions b ++ [c])).
Definition Build (b : t) : error + list Message :=
  inr [mkMessage MetaSubscribe (clientID b) false "" None "" [] ""
         (subscriptions b) ""].
End SubscribeRequestBuilder.

Module UnsubscribeRequestBuilder.
Record t : Type := mk { clientID : string; subscriptions : list Channel }.
Definition NewUnsubscribeRequestBuilder : t := mk "" [].
Definition AddClientID (b : t) (id : string) : t := mk id (subscriptions b).
Definition AddSubscription (b : t) (c : Channel) : error + t :=
  inr (mk (clientID b) (subscriptions b ++ [c])).
Definition Build (b : t) : error + list Message :=
  inr [mkMessage MetaUnsubscribe (clientID b) false "" None "" [] ""
         (subscriptions b) ""].
End UnsubscribeRequestBuilder.

Module DisconnectRequestBuilder.
Record t : Type := mk { clientID : string }.
Definition NewDisconnectRequestBuilder : t := mk "".
Definition AddClientID (b : t) (id : string) : t := mk id.
Definition Build (b : t) : error + list Message :=
  inr [mkMessage MetaDisconnect (clientID b) false "" None "" [] "" [] ""].
End DisconnectRequestBuilder.

(** [for _, s := range subscriptions { builder.AddSubscription(s) }],
    stopping at the first error. *)
Fixpoint addSubscriptions {B : Type} (add : B -> Channel -> error + B)
    (b : B) (subs : list Channel) : error + B :=
  match subs with
  | [] => inr b
  | s :: rest =>
      match add b s with
      | inl err => inl err
      | inr b' => addSubscriptions add b' rest
      end
  end.

(** The [transport] interface ([v2/bayeux_transport.go]).  Its [request]
    method is the [Request] node of [proto]: the protocol client only hands
    a batch over and continues with the answer; [transportType] is a
    constant of the implementation. *)
Class transport (T : Type) : Type := {
  transportType : T -> string;
}.

Module BayeuxClientT.

Import ConnectionStateMachine.

(** [state] is the [clientState], which holds the client id
    ([SetClientID] / [GetClientID]); [client] is the owned transport. *)
Record t (T : Type) : Type := mk {
  stateMachine : ConnectionStateMachine.t;
  client : T;
  state : string;
  exts : list MessageExtender;
}.
Arguments mk {T} _ _ _ _.
Arguments stateMachine {T} _.
Arguments client {T} _.
Arguments state {T} _.
Arguments exts {T} _.

Section WithTransport.
Context {T : Type} `{transport T}.

Definition NewBayeuxClientT (client : T) : t T :=
mk NewConnectionStateMachine client "" [].

Definition withStateMachine (b : t T) (s : ConnectionStateMachine.t) : t T :=
mk s (client b) (state b) (exts b).
Definition SetClientID (b : t T) (id : string) : t T :=
mk (stateMachine b) (client b) id (exts b).
Definition GetClientID (b : t T) : string := state b.

(** *** Extension hooks

  [for _, m := range ms { ext.Outgoing(&m) }]: at every iteration the
  loop variable [m] receives a copy of the element and the hook writes
  through [&m].  The frame keeps the slice and the loop variable
  apart. *)
Record frame : Type := mkFrame { slice : list Message; loopVar : Message }.

Definition rangeBody (hook : Message -> Message) (fr : frame) (i : nat) : frame :=
match slice fr !! i with
| Some x => mkFrame (slice fr) (hook x)
| None => fr
end.

Definition rangeHook (hook : Message -> Message) (fr : frame) : frame :=
fold_left (rangeBody hook) (seq 0 (length (slice fr))) fr.

(** The outer loop [for _, ext := range b.exts]. *)
Definition applyHooks (hooks : list (Message -> Message)) (ms : list Message)
: list Message :=
slice (fold_left (fun fr h => rangeHook h fr) hooks (mkFrame ms zeroMessage)).

Definition request (b : t T) (ms : list Message) : proto goret :=
let ms := applyHooks (map Outgoing (exts b)) ms in
Request ms (fun r =>
  match r with
  | (respMs, Some err) => Ret (respMs, Some err)
  | (respMs, None) =>
      let respMs := applyHooks (map Incoming (exts b)) respMs in
      Ret (respMs, None)
  end).

(** [for _, m := range resp { if m.Channel == MetaHandshake { message = m } }] *)
Definition findHandshake (resp : list Message) : Message :=
fold_left
  (fun message m =>
     if bool_decide (mChannel m = MetaHandshake) then m else message)
  resp zeroMessage.

Definition Handshake (b : t T) : proto (goret * t T) :=
match ProcessEvent (stateMachine b) handshakeSent with
| inl err => Ret (([], Some (HandshakeFailedError err)), b)
| inr sm =>
  let b := withStateMachine b sm in
  let builder := HandshakeRequestBuilder.NewHandshakeRequestBuilder in
  match HandshakeRequestBuilder.AddVersion builder "1.0" with
  | inl err => Ret (([], Some (HandshakeFailedError err)), b)
  | inr builder =>
  match HandshakeRequestBuilder.AddSupportedConnectionType builder
          ConnectionTypeLongPolling with
  | inl err => Ret (([], Some (HandshakeFailedError err)), b)
  | inr builder =>
  match (if bool_decide (transportType (client b) = ConnectionTypeWebsocket)
         then HandshakeRequestBuilder.AddSupportedConnectionType builder
                ConnectionTypeWebsocket
         else inr builder) with
  | inl err => Ret (([], Some (HandshakeFailedError err)), b)
  | inr builder =>
  match HandshakeRequestBuilder.Build builder with
  | inl err => Ret (([], Some (HandshakeFailedError err)), b)
  | inr ms =>
    r ← request b ms;
    match r with
    | (_, Some err) => Ret (([], Some (HandshakeFailedError err)), b)
    | (resp, None) =>
      if bool_decide (1 < length resp)%nat then
        Ret ((resp, Some (HandshakeFailedError ErrTooManyMessages)), b)
      else
        let message := findHandshake resp in
        if bool_decide (mChannel message = emptyChannel) then
          Ret ((resp, Some (HandshakeFailedError ErrBadChannel)), b)
        else if negb (mSuccessful message) then
          Ret ((resp, Some (HandshakeError (mError message))), b)
        else
          let b := SetClientID b (mClientID message) in
          let b :=
            match ProcessEvent (stateMachine b) successfullyConnected with
            | inl _ => b
            | inr sm => withStateMachine b sm
            end in
          Ret ((resp, None), b)
    end
  end end end end
end.

(** [for _, m := range resp { if m.Channel == ch && !m.Successful { return ... } }] *)
Definition firstFailure (ch : Channel) (resp : list Message) : option Message :=
List.find
  (fun m => bool_decide (mChannel m = ch) && negb (mSuccessful m)) resp.

Definition notConnected (b : t T) : bool :=
negb (IsConnected (stateMachine b)) || bool_decide (GetClientID b = "").

Definition Connect (b : t T) : proto (goret * t T) :=
let clientID := GetClientID b in
if notConnected b then Ret (([], Some ErrClientNotConnected), b)
else
  let builder := ConnectRequestBuilder.NewConnectRequestBuilder in
  let builder := ConnectRequestBuilder.AddClientID builder clientID in
  let builder :=
    match ConnectRequestBuilder.AddConnectionType builder
            (transportType (client b)) with
    | inl _ => builder
    | inr builder' => builder'
    end in
  match ConnectRequestBuilder.Build builder with
  | inl err => Ret (([], Some (ConnectionFailedError err)), b)
  | inr ms =>
    r ← request b ms;
    match r with
    | (_, Some err) => Ret (([], Some (ConnectionFailedError err)), b)
    | (resp, None) =>
      match firstFailure MetaConnect resp with
      | Some _ =>
          Ret ((resp, Some (ConnectionFailedError ErrFailedToConnect)), b)
      | None => Ret ((resp, None), b)
      end
    end
  end.

Definition Subscribe (b : t T) (subscriptions : list Channel) : proto (goret * t T) :=
let clientID := GetClientID b in
if notConnected b then
  Ret (([], Some (SubscriptionFailedError subscriptions ErrClientNotConnected)), b)
else
  let builder := SubscribeRequestBuilder.NewSubscribeRequestBuilder in
  let builder := SubscribeRequestBuilder.AddClientID builder clientID in
  match addSubscriptions SubscribeRequestBuilder.AddSubscription builder
          subscriptions with
  | inl err => Ret (([], Some (SubscriptionFailedError subscriptions err)), b)
  | inr builder =>
  match SubscribeRequestBuilder.Build builder with
  | inl err => Ret (([], Some (SubscriptionFailedError subscriptions err)), b)
  | inr ms =>
    r ← request b ms;
    match r with
    | (_, Some err) =>
        Ret (([], Some (SubscriptionFailedError subscriptions err)), b)
    | (resp, None) =>
      match firstFailure MetaSubscribe resp with
      | Some m =>
          Ret (([], Some (SubscriptionFailedError subscriptions
                            (SubscribeError (mError m)))), b)
      | None => Ret ((resp, None), b)
      end
    end
  end end.

Definition Unsubscribe (b : t T) (subscriptions : list Channel) : proto (goret * t T) :=
let clientID := GetClientID b in
if notConnected b then
  Ret (([], Some (UnsubscribeFailedError subscriptions ErrClientNotConnected)), b)
else
  let builder := UnsubscribeRequestBuilder.NewUnsubscribeRequestBuilder in
  let builder := UnsubscribeRequestBuilder.AddClientID builder clientID in
  match addSubscriptions UnsubscribeRequestBuilder.AddSubscription builder
          subscriptions with
  | inl err => Ret (([], Some (UnsubscribeFailedError subscriptions err)), b)
  | inr builder =>
  match UnsubscribeRequestBuilder.Build builder with
  | inl err => Ret (([], Some (UnsubscribeFailedError subscriptions err)), b)
  | inr ms =>
    r ← request b ms;
    match r with
    | (_, Some err) =>
        Ret (([], Some (UnsubscribeFailedError subscriptions err)), b)
    | (resp, None) =>
      match firstFailure MetaUnsubscribe resp with
      | Some m =>
          Ret ((resp, Some (UnsubscribeFailedError subscriptions
                              (UnsubscribeError (mError m)))), b)
      | None => Ret ((resp, None), b)
      end
    end
  end end.

Definition Disconnect (b : t T) : proto (goret * t T) :=
let clientID := GetClientID b in
if notConnected b then
  Ret (([], Some (DisconnectFailedError (Some ErrClientNotConnected))), b)
else
  let builder := DisconnectRequestBuilder.NewDisconnectRequestBuilder in
  let builder := DisconnectRequestBuilder.AddClientID builder clientID in
  match DisconnectRequestBuilder.Build builder with
  | inl err => Ret (([], Some (DisconnectFailedError (Some err))), b)
  | inr ms =>
    r ← request b ms;
    match r with
    | (_, Some err) => Ret (([], Some (DisconnectFailedError (Some err))), b)
    | (resp, None) =>
      match firstFailure MetaDisconnect resp with
      | Some _ => Ret ((resp, Some (DisconnectFailedError None)), b)
      | None => Ret ((resp, None), b)
      end
    end
  end.

Definition UseExtension (b : t T) (ext : MessageExtender) : option error * t T :=
if existsb (fun registered => Nat.eqb (extId ext) (extId registered)) (exts b)
then (Some (AlreadyRegisteredError (extId ext)), b)
else (None, mk (stateMachine b) (client b) (state b) (exts b ++ [ext])).

(** The calls a user of the protocol client can make, and a sequence of
  them run against a transport that answers with [reply]; the log
  pairs every call with what it returned. *)
Inductive call : Type :=
| callHandshake
| callConnect
| callSubscribe (subscriptions : list Channel)
| callUnsubscribe (subscriptions : list Channel)
| callDisconnect.

Definition perform (b : t T) (c : call) : proto (goret * t T) :=
match c with
| callHandshake => Handshake b
| callConnect => Connect b
| callSubscribe subscriptions => Subscribe b subscriptions
| callUnsubscribe subscriptions => Unsubscribe b subscriptions
| callDisconnect => Disconnect b
end.

Fixpoint performAll (b : t T) (cs : list call) (reply : list Message -> goret)
: list (call * goret) * t T :=
match cs with
| [] => ([], b)
| c :: rest =>
    let r := result (perform b c) reply in
    let later := performAll (snd r) rest reply in
    ((c, fst r) :: fst later, snd later)
end.

End WithTransport.

End BayeuxClientT.

(** ** Go channels *)

Record chan (A : Type) : Type := mkChan {
  cap : nat;
  buf : list A;
  closed : bool;
}.
Arguments mkChan {A} _ _ _.
Arguments cap {A} _.
Arguments buf {A} _.
Arguments closed {A} _.

(** [make(chan A, n)]; [make(chan A)] is [make 0]. *)
Definition make {A : Type} (n : nat) : chan A := mkChan n [] false.

(** A send by a goroutine that finds no receiver waiting: it panics on a
    closed channel, goes through when the buffer has room, and blocks
    otherwise. *)
Inductive sendResult (A : Type) : Type :=
| Sent (c : chan A)
| WouldBlock
| SendOnClosed.
Arguments Sent {A} c.
Arguments WouldBlock {A}.
Arguments SendOnClosed {A}.

Definition send {A : Type} (c : chan A) (x : A) : sendResult A :=
  if closed c then SendOnClosed
  else if bool_decide (length (buf c) < cap c)%nat
       then Sent (mkChan (cap c) (buf c ++ [x]) false)
       else WouldBlock.

(** A receive is ready when a value is buffered or the channel is closed;
    a closed and drained channel yields the zero value. *)
Definition canRecv {A : Type} (c : chan A) : bool :=
  match buf c with
  | [] => closed c
  | _ :: _ => true
  end.

Definition recv {A : Type} (zero : A) (c : chan A) : option (A * chan A) :=
  match buf c with
  | x :: rest => Some (x, mkChan (cap c) rest (closed c))
  | [] => if closed c then Some (zero, c) else None
  end.

(** [close(c)] panics when [c] is already closed. *)
Definition close {A : Type} (c : chan A) : option (chan A) :=
  if closed c then None else Some (mkChan (cap c) (buf c) true).

(** ** The long-polling transport *)

Module BayeuxTransportHttp.

(** What the HTTP client is asked to send. *)
Record Request : Type := mkRequest {
  method : string;
  url : string;
  body : bytes;
  header : list (string * string);
}.

(** What the HTTP client hands back: [Body] is what reading the body
    stream gives, the bytes or a read error. *)
Record Response : Type := mkResponse {
  StatusCode : Z;
  Status : string;
  Body : error + bytes;
}.

(** The pair of a response pointer and an error returned by
    [client.Do]; the pointer may be nil. *)
Definition DoResult : Type := option Response * option error.

Record t : Type := mk {
  Do : Request -> DoResult;
  serverAddress : string;
}.

Section Codec.
(** The JSON codec and the request constructor of the standard
    library. *)
Variable jsonEncode : list Message -> error + bytes.
Variable jsonDecode : bytes -> error + list Message.
Variable NewRequestWithContext :
  string -> string -> bytes -> error + Request.

Definition parseResponse (resp : option Response) : outcome goret :=
  match resp with
  | None => Panicked "invalid memory address or nil pointer dereference"
  | Some resp =>
    if bool_decide (StatusCode resp ≠ 200) then
      match Body resp with
      | inl _ =>
          Returned ([], Some (BadResponseError (StatusCode resp)
                                (Status resp) None))
      | inr body =>
          Returned ([], Some (BadResponseError (StatusCode resp)
                                (Status resp) (Some body)))
      end
    else
      match Body resp with
      | inl err => Returned ([], Some err)
      | inr body =>
        match jsonDecode body with
        | inl err => Returned ([], Some err)
        | inr messages => Returned (messages, None)
        end
      end
  end.

Definition setHeaders (req : Request) : Request :=
  mkRequest (method req) (url req) (body req)
    (header req ++ [("Content-Type", "application/json");
                    ("Accept", "application/json")]).

Definition request (t : t) (ms : list Message) : outcome goret :=
  match jsonEncode ms with
  | inl err => Returned ([], Some err)
  | inr buf =>
    match NewRequestWithContext "POST" (serverAddress t) buf with
    | inl err => Returned ([], Some err)
    | inr req =>
      let req := setHeaders req in
      match Do t req with
      | (response, Some err) =>
        (* BadResponseError{response.StatusCode, response.Status, nil} *)
        match response with
        | None => Panicked "invalid memory address or nil pointer dereference"
        | Some r =>
            Returned ([], Some (BadResponseError (StatusCode r) (Status r) None))
        end
      | (response, None) => parseResponse response
      end
    end
  end.
End Codec.

Definition transportType (_ : t) : string := ConnectionTypeLongPolling.

End BayeuxTransportHttp.

#[global] Instance BayeuxTransportHttp_transport : transport BayeuxTransportHttp.t :=
  {| transportType := BayeuxTransportHttp.transportType |}.

(** ** The websocket transport *)

Module BayeuxTransportWebsocket.

Definition TextMessage : Z := 1.
Definition BinaryMessage : Z := 2.

Definition wsErrorUnsupported : error := ErrOther "unsupported message type".
Definition wsErrorUndelivered : error := ErrOther "received unrequested message".
Definition wsErrorBad (err : error) : error := err.
Definition errNotReady : error := ErrOther "websocket not ready".

(** The transport object: [conn] is nil until the read loop has dialled;
    [openRequest] is an [atomic.Uint32]. *)
Record t : Type := mk {
  conn : bool;
  msgBuffer : chan bytes;
  openRequest : Z;
  ready : bool;
}.

Definition NewBayeuxTransportWebsocket : t :=
  mk false (make 100) 0 false.

Definition transportType (_ : t) : string := ConnectionTypeWebsocket.

(** [openRequest.Add(1)] on 32 bits. *)
Definition add1 (n : Z) : Z := (n + 1) mod 2 ^ 32.

(** Where the goroutine that called [request] stands. *)
Inductive reqPc : Type :=
| QIdle
| QLoadReady (msg : list Message)
| QWriteJSON (msg : list Message)
| QAdd
| QRecv
| QReturned (r : goret).

(** Where the goroutine that runs [readLoop] stands. *)
Inductive rdPc : Type :=
| RDial
| RRead
| RLoad (raw : bytes)
| RSend (raw : bytes) (openRequest : Z)
| RStore (openRequest : Z)
| RReport (err : error)
| RReturned (err : option error).

(** What the surroundings contribute to a step: the caller's batch, the
    result of a write or of the dial, what [ReadMessage] returns, the
    cancellation of the context, and whether the owner of the error
    channel is receiving from it. *)
Inductive input : Type :=
| Call (msg : list Message)
| Wrote (err : option error)
| Dialled (err : option error)
| Frame (messageType : Z) (raw : bytes)
| ReadFailed (err : error)
| Cancelled
| Receiving
| Tau.

Record sys : Type := mkSys {
  transport_ : t;
  req : reqPc;
  rd : rdPc;
  errChan : list error;
  written : list (list Message);
}.

Definition withT (s : sys) (x : t) : sys :=
  mkSys x (req s) (rd s) (errChan s) (written s).
Definition withReq (s : sys) (p : reqPc) : sys :=
  mkSys (transport_ s) p (rd s) (errChan s) (written s).
Definition withRd (s : sys) (p : rdPc) : sys :=
  mkSys (transport_ s) (req s) p (errChan s) (written s).

Definition init : sys :=
  mkSys NewBayeuxTransportWebsocket QIdle RDial [] [].

(** The caller of [request] stands at [raw := <-t.msgBuffer] and finds
    the buffer empty. *)
Definition waiting (s : sys) : Prop :=
  req s = QRecv /\
  buf (msgBuffer (transport_ s)) = [] /\
  closed (msgBuffer (transport_ s)) = false.


Section Codec.
Variable jsonUnmarshal : bytes -> error + list Message.

(** The end of [request]: the frame taken from the buffer is decoded
    and returned, or the decoding error is. *)
Definition unmarshal (raw : bytes) : goret :=
  match jsonUnmarshal raw with
  | inl err => ([], Some err)
  | inr messages => (messages, None)
  end.

(** One atomic action of [request]; [None] when the goroutine cannot
    move (it is blocked, or the input is not the one it waits for). *)
Definition reqStep (i : input) (s : sys) : option sys :=
  let t := transport_ s in
  match req s, i with
  | QIdle, Call msg => Some (withReq s (QLoadReady msg))
  | QReturned _, Call msg => Some (withReq s (QLoadReady msg))
  | QLoadReady msg, Tau =>
      if negb (ready t)
      then Some (withReq s (QReturned ([], Some errNotReady)))
      else Some (withReq s (QWriteJSON msg))
  | QWriteJSON msg, Wrote (Some err) =>
      Some (withReq s (QReturned ([], Some err)))
  | QWriteJSON msg, Wrote None =>
      Some (mkSys t QAdd (rd s) (errChan s) (written s ++ [msg]))
  | QAdd, Tau =>
      Some (mkSys (mk (conn t) (msgBuffer t) (add1 (openRequest t)) (ready t))
              QRecv (rd s) (errChan s) (written s))
  | QRecv, Tau =>
      match recv [] (msgBuffer t) with
      | None => None
      | Some (raw, c) =>
        let t := mk (conn t) c (openRequest t) (ready t) in
        Some (mkSys t (QReturned (unmarshal raw)) (rd s)
                (errChan s) (written s))
      end
  | _, _ => None
  end.

(** One atomic action of [readLoop]; the deferred [ready.Store(false)]
    runs at every return. *)
Definition rdStep (i : input) (s : sys) : option sys :=
  let t := transport_ s in
  let leave (err : option error) :=
    mkSys (mk (conn t) (msgBuffer t) (openRequest t) false)
      (req s) (RReturned err) (errChan s) (written s) in
  match rd s, i with
  | RDial, Dialled (Some err) => Some (leave (Some (wsErrorBad err)))
  | RDial, Dialled None =>
      Some (mkSys (mk true (msgBuffer t) (openRequest t) true)
              (req s) RRead (errChan s) (written s))
  | RRead, Cancelled => Some (leave None)
  | RRead, ReadFailed err => Some (leave (Some (wsErrorBad err)))
  | RRead, Frame messageType raw =>
      if bool_decide (messageType ≠ TextMessage)
      then Some (withRd s (RReport wsErrorUnsupported))
      else Some (withRd s (RLoad raw))
  | RLoad raw, Tau =>
      let openRequest := openRequest t in
      if bool_decide (0 < openRequest)
      then Some (withRd s (RSend raw openRequest))
      else Some (withRd s (RReport wsErrorUndelivered))
  | RSend raw n, Tau =>
      match send (msgBuffer t) raw with
      | Sent c =>
          Some (mkSys (mk (conn t) c (openRequest t) (ready t))
                  (req s) (RStore n) (errChan s) (written s))
      | WouldBlock => None
      | SendOnClosed => None
      end
  | RStore n, Tau =>
      Some (mkSys (mk (conn t) (msgBuffer t) (n - 1) (ready t))
              (req s) RRead (errChan s) (written s))
  | RReport err, Receiving =>
      Some (mkSys t (req s) RRead (errChan s ++ [err]) (written s))
  | _, _ => None
  end.

Inductive action : Type :=
| Req (i : input)
| Rd (i : input).

Definition step (a : action) (s : sys) : option sys :=
  match a with
  | Req i => reqStep i s
  | Rd i => rdStep i s
  end.

(** An interleaving of the two goroutines. *)
Fixpoint run (acts : list action) (s : sys) : option sys :=
  match acts with
  | [] => Some s
  | a :: rest =>
      match step a s with
      | Some s' => run rest s'
      | None => None
      end
  end.
End Codec.

End BayeuxTransportWebsocket.

#[global] Instance BayeuxTransportWebsocket_transport :
  transport BayeuxTransportWebsocket.t :=
  {| transportType := BayeuxTransportWebsocket.transportType |}.

(** ** The session loop *)

(** Modelled from the spec: the protocol client driven by the session loop
    ([*BayeuxClient]) is not part of the sources at hand.  The loop only
    needs its five calls; each one returns the Go result pair and the
    client as the call left it, the answers of the server included. *)
Class ProtocolClient (P : Type) : Type := {
  pHandshake : P -> goret * P;
  pConnect : P -> goret * P;
  pSubscribe : P -> list Channel -> goret * P;
  pUnsubscribe : P -> list Channel -> goret * P;
  pDisconnect : P -> goret * P;
}.

(** A [BayeuxClientT] together with the answers of its transport is such a
    protocol client. *)
Record served (T : Type) : Type := mkServed {
  theClient : BayeuxClientT.t T;
  answer : list Message -> goret;
}.
Arguments mkServed {T} _ _.
Arguments theClient {T} _.
Arguments answer {T} _.

Definition serve {T : Type} (s : served T)
    (call : BayeuxClientT.t T -> proto (goret * BayeuxClientT.t T))
  : goret * served T :=
  let r := result (call (theClient s)) (answer s) in
  (fst r, mkServed (snd r) (answer s)).

#[global] Instance served_ProtocolClient {T : Type} `{transport T}
  : ProtocolClient (served T) := {|
  pHandshake s := serve s BayeuxClientT.Handshake;
  pConnect s := serve s BayeuxClientT.Connect;
  pSubscribe s chs := serve s (fun b => BayeuxClientT.Subscribe b chs);
  pUnsubscribe s chs := serve s (fun b => BayeuxClientT.Unsubscribe b chs);
  pDisconnect s := serve s BayeuxClientT.Disconnect;
|}.

(** A delivery queue is a Go channel of batches.  The map of subscriptions
    and the [Client] may hold the same channel, so queues are named: the
    client's own [connectMessageChannel], a channel made by a caller, or
    nil. *)
Inductive chanRef : Type :=
| nilChan
| connectMessageChannelRef
| userChan (id : nat).

#[global] Instance chanRef_eq_dec : EqDecision chanRef.
Proof. solve_decision. Defined.

(** Modelled from the spec: the map of subscriptions is not part of the
    sources at hand.  At most one queue per channel: adding a duplicate is
    an error; looking up an unregistered channel is an error. *)
Module subscriptionsMap.
Abbreviation t := (gmap Channel chanRef).
Definition newSubscriptionsMap : t := ∅.
Definition Add (m : t) (ch : Channel) (q : chanRef) : error + t :=
  match m !! ch with
  | Some _ => inl (ErrAlreadySubscribed ch)
  | None => inr (<[ch := q]> m)
  end.
Definition Get (m : t) (ch : Channel) : error + chanRef :=
  match m !! ch with
  | Some q => inr q
  | None => inl (ErrNotSubscribed ch)
  end.
Definition Remove (m : t) (ch : Channel) : t := delete ch m.
End subscriptionsMap.

Module Client.

Record subscriptionRequest : Type := mkSubscriptionRequest {
  subscription : Channel;
  msgChan : chanRef;
}.

Definition zeroSubscriptionRequest : subscriptionRequest :=
  mkSubscriptionRequest emptyChannel nilChan.

Definition IgnoreErrorFunc : Type := error -> bool.

(** The options of [NewClient]; the logger and the HTTP client carry no
    protocol behaviour and are left out. *)
Record Options : Type := mkOptions {
  IgnoreError : option IgnoreErrorFunc;
}.
Definition Option_ : Type := Options -> Options.
Definition WithIgnoreError (f : IgnoreErrorFunc) : Option_ :=
  fun _ => mkOptions (Some f).

Record t (P : Type) : Type := mk {
  client : P;
  subscriptions : gmap Channel chanRef;
  subscribeRequestChannel : chan subscriptionRequest;
  unsubscribeRequestChannel : chan Channel;
  connectRequestChannel : chan unit;
  connectMessageChannel : chan (list Message);
  handshakeRequestChannel : chan unit;
  shutdown : chan unit;
  ignoreError : IgnoreErrorFunc;
}.
Arguments mk {P} _ _ _ _ _ _ _ _ _.
Arguments client {P} _.
Arguments subscriptions {P} _.
Arguments subscribeRequestChannel {P} _.
Arguments unsubscribeRequestChannel {P} _.
Arguments connectRequestChannel {P} _.
Arguments connectMessageChannel {P} _.
Arguments handshakeRequestChannel {P} _.
Arguments shutdown {P} _.
Arguments ignoreError {P} _.

(** What surrounds the [Client] object: the context given to [Start],
    the error stream returned by [Start], the batches sent so far to the
    callers' queues, and the delayed connect triggers not yet fired. *)
Record world (P : Type) : Type := mkWorld {
  self : t P;
  ctx : option error;
  errors : list error;
  userQueues : gmap nat (list (list Message));
  timers : list Z;
}.
Arguments mkWorld {P} _ _ _ _ _.
Arguments self {P} _.
Arguments ctx {P} _.
Arguments errors {P} _.
Arguments userQueues {P} _.
Arguments timers {P} _.

(** How one turn of the loop ends. *)
Inductive iter (P : Type) : Type :=
| Continue (w : world P)
| BreakLoop (w : world P)
| ReturnErr (err : error) (w : world P)
| Stuck (w : world P)
| Panics (why : string).
Arguments Continue {P} w.
Arguments BreakLoop {P} w.
Arguments ReturnErr {P} err w.
Arguments Stuck {P} w.
Arguments Panics {P} why.

Inductive selectCase : Type :=
| caseShutdown
| caseCtxDone
| caseSubscribe
| caseUnsubscribe
| caseHandshake
| caseConnectMessage
| caseConnectRequest
| caseDefault.

Section WithProtocolClient.
Context {P : Type} `{ProtocolClient P}.

Definition setClient (c : t P) (p : P) : t P :=
mk p (subscriptions c) (subscribeRequestChannel c)
  (unsubscribeRequestChannel c) (connectRequestChannel c)
  (connectMessageChannel c) (handshakeRequestChannel c) (shutdown c)
  (ignoreError c).
Definition setSubscriptions (c : t P) (m : gmap Channel chanRef) : t P :=
mk (client c) m (subscribeRequestChannel c)
  (unsubscribeRequestChannel c) (connectRequestChannel c)
  (connectMessageChannel c) (handshakeRequestChannel c) (shutdown c)
  (ignoreError c).
Definition setSubscribeRequestChannel (c : t P) (q : chan subscriptionRequest) : t P :=
mk (client c) (subscriptions c) q
  (unsubscribeRequestChannel c) (connectRequestChannel c)
  (connectMessageChannel c) (handshakeRequestChannel c) (shutdown c)
  (ignoreError c).
Definition setUnsubscribeRequestChannel (c : t P) (q : chan Channel) : t P :=
mk (client c) (subscriptions c) (subscribeRequestChannel c)
  q (connectRequestChannel c)
  (connectMessageChannel c) (handshakeRequestChannel c) (shutdown c)
  (ignoreError c).
Definition setConnectRequestChannel (c : t P) (q : chan unit) : t P :=
mk (client c) (subscriptions c) (subscribeRequestChannel c)
  (unsubscribeRequestChannel c) q
  (connectMessageChannel c) (handshakeRequestChannel c) (shutdown c)
  (ignoreError c).
Definition setConnectMessageChannel (c : t P) (q : chan (list Message)) : t P :=
mk (client c) (subscriptions c) (subscribeRequestChannel c)
  (unsubscribeRequestChannel c) (connectRequestChannel c)
  q (handshakeRequestChannel c) (shutdown c)
  (ignoreError c).
Definition setHandshakeRequestChannel (c : t P) (q : chan unit) : t P :=
mk (client c) (subscriptions c) (subscribeRequestChannel c)
  (unsubscribeRequestChannel c) (connectRequestChannel c)
  (connectMessageChannel c) q (shutdown c)
  (ignoreError c).
Definition setShutdown (c : t P) (q : chan unit) : t P :=
mk (client c) (subscriptions c) (subscribeRequestChannel c)
  (unsubscribeRequestChannel c) (connectRequestChannel c)
  (connectMessageChannel c) (handshakeRequestChannel c) q
  (ignoreError c).

Definition setSelf (w : world P) (c : t P) : world P :=
mkWorld c (ctx w) (errors w) (userQueues w) (timers w).
(** [errors <- err]: the caller of [Start] receives from the stream. *)
Definition sendError (w : world P) (err : error) : world P :=
mkWorld (self w) (ctx w) (errors w ++ [err]) (userQueues w) (timers w).
Definition addTimer (w : world P) (interval : Z) : world P :=
mkWorld (self w) (ctx w) (errors w) (userQueues w) (timers w ++ [interval]).

(** [NewClient]: [bc] is what [NewBayeuxClient] returned. *)
Definition NewClient (bc : error + P) (opts : list (option Option_))
: error + t P :=
let options :=
  fold_left
    (fun options opt =>
       match opt with Some f => f options | None => options end)
    opts (mkOptions None) in
let ignore :=
  match IgnoreError options with
  | Some f => f
  | None => fun _ => false
  end in
match bc with
| inl err => inl err
| inr bc =>
    inr (mk bc subscriptionsMap.newSubscriptionsMap
           (make 10) (make 10) (make 1) (make 5) (make 0) (make 0)
           ignore)
end.

(** [c.subscribeRequestChannel <- subscriptionRequest{ch, receiving}] *)
Definition Subscribe (c : t P) (ch : Channel) (receiving : chanRef)
: outcome (t P) :=
match send (subscribeRequestChannel c) (mkSubscriptionRequest ch receiving) with
| Sent q => Returned (setSubscribeRequestChannel c q)
| WouldBlock => Blocked
| SendOnClosed => Panicked "send on closed channel"
end.

(** [c.unsubscribeRequestChannel <- ch] *)
Definition Unsubscribe (c : t P) (ch : Channel) : outcome (t P) :=
match send (unsubscribeRequestChannel c) ch with
| Sent q => Returned (setUnsubscribeRequestChannel c q)
| WouldBlock => Blocked
| SendOnClosed => Panicked "send on closed channel"
end.

Definition Disconnect (c : t P) : outcome (option error * t P) :=
let '((_, err), p) := pDisconnect (client c) in
let c := setClient c p in
match close (subscribeRequestChannel c) with
| None => Panicked "close of closed channel"
| Some q =>
let c := setSubscribeRequestChannel c q in
match close (unsubscribeRequestChannel c) with
| None => Panicked "close of closed channel"
| Some q =>
let c := setUnsubscribeRequestChannel c q in
match close (connectRequestChannel c) with
| None => Panicked "close of closed channel"
| Some q =>
let c := setConnectRequestChannel c q in
match close (connectMessageChannel c) with
| None => Panicked "close of closed channel"
| Some q =>
let c := setConnectMessageChannel c q in
match close (handshakeRequestChannel c) with
| None => Panicked "close of closed channel"
| Some q =>
let c := setHandshakeRequestChannel c q in
Returned (err, c)
end end end end end.

(** The five queues of the client, all open or all closed. *)
Definition queuesOpen (c : t P) : Prop :=
closed (subscribeRequestChannel c) = false /\
closed (unsubscribeRequestChannel c) = false /\
closed (connectRequestChannel c) = false /\
closed (connectMessageChannel c) = false /\
closed (handshakeRequestChannel c) = false.

Definition queuesClosed (c : t P) : Prop :=
closed (subscribeRequestChannel c) = true /\
closed (unsubscribeRequestChannel c) = true /\
closed (connectRequestChannel c) = true /\
closed (connectMessageChannel c) = true /\
closed (handshakeRequestChannel c) = true.

(** The non-blocking drain [for { select { case req := <-ch: ...;
  default: break } }]: it empties the buffer of an open channel; on a
  closed channel every receive succeeds and the loop never leaves. *)
Definition drain {A : Type} (q : chan A) : option (list A * chan A) :=
if closed q then None
else Some (buf q, mkChan (cap q) [] false).

Definition getSubscriptionRequests (c : t P)
: option (list subscriptionRequest * list Channel * t P) :=
match drain (subscribeRequestChannel c) with
| None => None
| Some (reqs, q) =>
    Some (reqs, map subscription reqs, setSubscribeRequestChannel c q)
end.

Definition getUnsubscriptionRequests (c : t P)
: option (list Channel * t P) :=
match drain (unsubscribeRequestChannel c) with
| None => None
| Some (reqs, q) => Some (reqs, setUnsubscribeRequestChannel c q)
end.

(** [select { case c.connectRequestChannel <- struct{}{}: default: }] *)
Definition enqueueConnectRequest (c : t P) : outcome (t P) :=
match send (connectRequestChannel c) tt with
| Sent q => Returned (setConnectRequestChannel c q)
| WouldBlock => Returned c
| SendOnClosed => Panicked "send on closed channel"
end.

Definition afterEnqueue (w : world P) : iter P :=
match enqueueConnectRequest (self w) with
| Returned c => Continue (setSelf w c)
| Panicked why => Panics why
| Blocked => Stuck w
end.

(** [msgChan <- batch] *)
Definition deliver (w : world P) (msgChan : chanRef) (batch : list Message)
: outcome (world P) :=
match msgChan with
| nilChan => Blocked
| connectMessageChannelRef =>
    match send (connectMessageChannel (self w)) batch with
    | Sent q => Returned (setSelf w (setConnectMessageChannel (self w) q))
    | WouldBlock => Blocked
    | SendOnClosed => Panicked "send on closed channel"
    end
| userChan id =>
    Returned (mkWorld (self w) (ctx w) (errors w)
                (<[id := default [] (userQueues w !! id) ++ [batch]]>
                   (userQueues w))
                (timers w))
end.

(** The delivery loop of the connect case, with its two locals. *)
Record delivery : Type := mkDelivery {
after : world P;
batch : list Message;
lastChannel : Channel;
}.

Fixpoint deliverMessages (w : world P) (batch : list Message)
  (lastChannel : Channel) (ms : list Message) : error + outcome delivery :=
match ms with
| [] => inr (Returned (mkDelivery w batch lastChannel))
| m :: rest =>
    if bool_decide (lastChannel = emptyChannel) then
      deliverMessages w (batch ++ [m]) (mChannel m) rest
    else if bool_decide (lastChannel = mChannel m) then
      deliverMessages w (batch ++ [m]) lastChannel rest
    else
      match subscriptionsMap.Get (subscriptions (self w)) lastChannel with
      | inl err => inl err
      | inr msgChan =>
          match deliver w msgChan batch with
          | Returned w => deliverMessages w [m] (mChannel m) rest
          | Panicked why => inr (Panicked why)
          | Blocked => inr Blocked
          end
      end
end.

(** The registration loop of the subscribe case. *)
Fixpoint addSubscriptions (w : world P) (subReqs : list subscriptionRequest)
: option error * world P :=
match subReqs with
| [] => (None, w)
| subReq :: rest =>
    match subscriptionsMap.Add (subscriptions (self w))
            (subscription subReq) (msgChan subReq) with
    | inl err =>
        if ignoreError (self w) err
        then addSubscriptions (sendError w err) rest
        else (Some err, w)
    | inr m => addSubscriptions (setSelf w (setSubscriptions (self w) m)) rest
    end
end.

(** The loop over the messages of a connect reply. *)
Fixpoint handleAdvice (w : world P) (ms : list Message) : outcome (world P) :=
match ms with
| [] => Returned w
| m :: rest =>
    let continue (w : world P) :=
      handleAdvice (addTimer w (IntervalAsDuration (mAdvice m))) rest in
    if ShouldHandshake (mAdvice m) then
      match send (handshakeRequestChannel (self w)) tt with
      | Sent q => continue (setSelf w (setHandshakeRequestChannel (self w) q))
      | WouldBlock => Blocked
      | SendOnClosed => Panicked "send on closed channel"
      end
    else continue w
end.

(** Whether the [select] of the loop can take a case. *)
Definition ready (w : world P) (k : selectCase) : bool :=
let c := self w in
match k with
| caseShutdown => canRecv (shutdown c)
| caseCtxDone => bool_decide (is_Some (ctx w))
| caseSubscribe => canRecv (subscribeRequestChannel c)
| caseUnsubscribe => canRecv (unsubscribeRequestChannel c)
| caseHandshake => canRecv (handshakeRequestChannel c)
| caseConnectMessage => canRecv (connectMessageChannel c)
| caseConnectRequest => canRecv (connectRequestChannel c)
| caseDefault =>
    negb (canRecv (shutdown c) || bool_decide (is_Some (ctx w))
          || canRecv (subscribeRequestChannel c)
          || canRecv (unsubscribeRequestChannel c)
          || canRecv (handshakeRequestChannel c)
          || canRecv (connectMessageChannel c)
          || canRecv (connectRequestChannel c))
end.

(** One turn of [poll] when the [select] takes case [k]; [None] when that
  case is not ready.  A cancelled context always has an error. *)
Definition pollTurn (w : world P) (k : selectCase) : option (iter P) :=
let c := self w in
match k with
| caseShutdown =>
    match recv tt (shutdown c) with
    | None => None
    | Some (_, q) => Some (BreakLoop (setSelf w (setShutdown c q)))
    end
| caseCtxDone =>
    match ctx w with
    | None => None
    | Some err => Some (ReturnErr err w)
    end
| caseSubscribe =>
    match recv zeroSubscriptionRequest (subscribeRequestChannel c) with
    | None => None
    | Some (subReq, q) =>
      let c := setSubscribeRequestChannel c q in
      match getSubscriptionRequests c with
      | None => Some (Stuck (setSelf w c))
      | Some (subReqs, channels, c) =>
        let subReqs := subReqs ++ [subReq] in
        let channels := channels ++ [subscription subReq] in
        let '((_, err), p) := pSubscribe (client c) channels in
        let w := setSelf w (setClient c p) in
        match err with
        | Some err =>
            if ignoreError c err then Some (Continue (sendError w err))
            else Some (ReturnErr err w)
        | None =>
            match addSubscriptions w subReqs with
            | (Some err, w) => Some (ReturnErr err w)
            | (None, w) => Some (afterEnqueue w)
            end
        end
      end
    end
| caseUnsubscribe =>
    match recv emptyChannel (unsubscribeRequestChannel c) with
    | None => None
    | Some (unsubReq, q) =>
      let c := setUnsubscribeRequestChannel c q in
      match getUnsubscriptionRequests c with
      | None => Some (Stuck (setSelf w c))
      | Some (channels, c) =>
        let channels := channels ++ [unsubReq] in
        let '((_, err), p) := pUnsubscribe (client c) channels in
        let c := setClient c p in
        let w := setSelf w c in
        match err with
        | Some err =>
            if ignoreError c err then Some (Continue (sendError w err))
            else Some (ReturnErr err w)
        | None =>
            Some (Continue
                    (setSelf w
                       (setSubscriptions c
                          (fold_left subscriptionsMap.Remove channels
                             (subscriptions c)))))
        end
      end
    end
| caseHandshake =>
    match recv tt (handshakeRequestChannel c) with
    | None => None
    | Some (_, q) =>
      let c := setHandshakeRequestChannel c q in
      let '((_, err), p) := pHandshake (client c) in
      let w := setSelf w (setClient c p) in
      match err with
      | Some err => Some (ReturnErr err w)
      | None => Some (afterEnqueue w)
      end
    end
| caseConnectMessage =>
    match recv [] (connectMessageChannel c) with
    | None => None
    | Some (ms, q) =>
      let w := setSelf w (setConnectMessageChannel c q) in
      match handleAdvice w ms with
      | Returned w => Some (Continue w)
      | Panicked why => Some (Panics why)
      | Blocked => Some (Stuck w)
      end
    end
| caseConnectRequest =>
    match recv tt (connectRequestChannel c) with
    | None => None
    | Some (_, q) =>
      let c := setConnectRequestChannel c q in
      let '((ms, err), p) := pConnect (client c) in
      let w := setSelf w (setClient c p) in
      match err with
      | Some err => Some (ReturnErr err w)
      | None =>
          match deliverMessages w [] emptyChannel ms with
          | inl err => Some (ReturnErr err w)
          | inr (Returned d) => Some (Continue (after d))
          | inr (Panicked why) => Some (Panics why)
          | inr Blocked => Some (Stuck w)
          end
      end
    end
| caseDefault =>
    if ready w caseDefault then Some (afterEnqueue w) else None
end.

(** How [poll] ends along a schedule of [select] choices. *)
Inductive pollResult : Type :=
| PollReturned (err : option error) (w : world P)
| PollStuck (w : world P)
| PollPanics (why : string)
| PollNotReady (k : selectCase) (w : world P)
| PollRunning (w : world P).

Fixpoint poll (sched : list selectCase) (w : world P) : pollResult :=
match sched with
| [] => PollRunning w
| k :: rest =>
    match pollTurn w k with
    | None => PollNotReady k w
    | Some (Continue w) => poll rest w
    | Some (BreakLoop w) => PollReturned None w
    | Some (ReturnErr err w) => PollReturned (Some err) w
    | Some (Stuck w) => PollStuck w
    | Some (Panics why) => PollPanics why
    end
end.

(** How the goroutine started by [Start] ends; what it reported is on
  the error stream of the world. *)
Inductive startResult : Type :=
| StartReturned (w : world P)
| StartStuck (w : world P)
| StartPanics (why : string)
| StartNotReady (k : selectCase) (w : world P)
| StartRunning (w : world P).

Definition start (sched : list selectCase) (w : world P) : startResult :=
let c := self w in
let '((_, err), p) := pHandshake (client c) in
let c := setClient c p in
let w := setSelf w c in
match err with
| Some err => StartReturned (sendError w err)
| None =>
  let c :=
    match subscriptionsMap.Add (subscriptions c) MetaConnect
            connectMessageChannelRef with
    | inl _ => c
    | inr m => setSubscriptions c m
    end in
  match poll sched (setSelf w c) with
  | PollReturned (Some err) w => StartReturned (sendError w err)
  | PollReturned None w =>
      let '((_, err), p) := pDisconnect (client (self w)) in
      let w := setSelf w (setClient (self w) p) in
      match err with
      | Some err => StartReturned (sendError w err)
      | None => StartReturned w
      end
  | PollStuck w => StartStuck w
  | PollPanics why => StartPanics why
  | PollNotReady k w => StartNotReady k w
  | PollRunning w => StartRunning w
  end
end.

End WithProtocolClient.

End Client.

(** ** Sample values *)

Module Samples.

Import BayeuxClientT.

Definition ws : BayeuxTransportWebsocket.t :=
  BayeuxTransportWebsocket.NewBayeuxTransportWebsocket.

(** A protocol client fresh from its constructor, and one after a
    successful handshake. *)
Definition freshClient : BayeuxClientT.t BayeuxTransportWebsocket.t :=
  NewBayeuxClientT ws.
Definition connectedClient : BayeuxClientT.t BayeuxTransportWebsocket.t :=
  BayeuxClientT.mk CONNECTED ws "client-1" [].

Definition event (ch : Channel) (id : string) : Message :=
  mkMessage ch "" false "" None "" [] "" [] id.

Definition handshakeOk : Message :=
  mkMessage MetaHandshake "client-1" true "" None "1.0"
    [ConnectionTypeLongPolling] "" [] "".
Definition handshakeRefused : Message :=
  mkMessage MetaHandshake "" false "403::denied" None "1.0" [] "" [] "".
Definition connectRefused : Message :=
  mkMessage MetaConnect "client-1" false "402::unknown client" None "" [] "" [] "".
Definition rehandshakeAdvice : Message :=
  mkMessage MetaConnect "client-1" true "" (Some (mkAdvice "handshake" 0))
    "" [] "" [] "".

(** A server: what it answers to the one-message batch of each
    operation, given its answer to a connect request. *)
Definition server (connectReply : list Message) (ms : list Message) : goret :=
  match ms with
  | [m] =>
      if bool_decide (mChannel m = MetaHandshake) then ([handshakeOk], None)
      else if bool_decide (mChannel m = MetaConnect) then (connectReply, None)
      else ([mkMessage (mChannel m) (mClientID m) true "" None "" [] "" [] ""],
            None)
  | _ => ([], Some (ErrOther "bad request"))
  end.

Definition threeEvents : list Message :=
  [event "/a" "1"; event "/a" "2"; event "/b" "3"].

(** The HTTP client of a transport whose server cannot be reached, and
    one whose server answers 503. *)
Definition unreachable : BayeuxTransportHttp.t :=
  BayeuxTransportHttp.mk
    (fun _ => (None, Some (ErrOther "connection refused")))
    "https://example.com".
Definition unavailable : BayeuxTransportHttp.t :=
  BayeuxTransportHttp.mk
    (fun _ => (Some (BayeuxTransportHttp.mkResponse 503
                       "503 Service Unavailable" (inr [])), None))
    "https://example.com".
Definition plainRequest (method url : string) (body : bytes)
  : error + BayeuxTransportHttp.Request :=
  inr (BayeuxTransportHttp.mkRequest method url body []).

(** A session around the protocol client [b] whose two callers
    registered queues 0 and 1 for /a and /b, with one connect trigger
    queued. *)
Definition sessionWith (b : BayeuxClientT.t BayeuxTransportWebsocket.t)
    (connectReply : list Message)
  : Client.world (served BayeuxTransportWebsocket.t) :=
  let c :=
    Client.mk (mkServed b (server connectReply))
      (<["/a" := userChan 0]> (<["/b" := userChan 1]>
         (<[MetaConnect := connectMessageChannelRef]> ∅)))
      (make 10) (make 10) (mkChan 1 [tt] false) (make 5) (make 0) (make 0)
      (fun _ => false) in
  Client.mkWorld c None [] ∅ [].

Definition session : list Message ->
    Client.world (served BayeuxTransportWebsocket.t) :=
  sessionWith connectedClient.

(** The same session once the context given to [Start] is cancelled. *)
Definition cancelled : Client.world (served BayeuxTransportWebsocket.t) :=
  Client.mkWorld (Client.self (session [])) (Some (ErrContext "context canceled"))
    [] ∅ [].

(** A reader that has dialled and a caller that waits for the reply to
    its one outstanding request. *)
Definition awaitingReply : BayeuxTransportWebsocket.sys :=
  BayeuxTransportWebsocket.mkSys
    (BayeuxTransportWebsocket.mk true (make 100) 1 true)
    BayeuxTransportWebsocket.QRecv BayeuxTransportWebsocket.RRead [] [[]].

(** A transport whose read loop has dialled, with no call made yet. *)
Definition dialled : BayeuxTransportWebsocket.sys :=
  BayeuxTransportWebsocket.mkSys
    (BayeuxTransportWebsocket.mk true (make 100) 0 true)
    BayeuxTransportWebsocket.QIdle BayeuxTransportWebsocket.RRead [] [].

Definition noCodec (_ : bytes) : error + list Message := inr [].
Definition noEncoder (_ : list Message) : error + bytes := inr [].

End Samples.

(** ** The supervisor of the read loop *)

Module WebsocketListen.

Import BayeuxTransportWebsocket.

(** Where the goroutine that runs [listen] stands: inside [readLoop],
    at [errChan <- err], at [<-time.After(reconnectAfter)], or past its
    [return]. *)
Inductive lsPc : Type :=
| LReadLoop
| LReport (err : error)
| LSleep
| LReturned.

Record lsys : Type := mkLsys {
  inner : sys;
  ls : lsPc;
}.

(** What the surroundings contribute to a step of [listen]: an input of
    the read loop it runs, the owner of the error channel receiving, or
    the reconnect delay elapsing. *)
Inductive linput : Type :=
| InReader (i : input)
| InReceiving
| InElapsed.

(** One atomic action of [listen].  When [readLoop] returns, a non-nil
    error is reported and the loop is called again after the delay; a
    nil error ends [listen]. *)
Definition listenStep (i : linput) (l : lsys) : option lsys :=
  match ls l, i with
  | LReadLoop, InReader i =>
      match rdStep i (inner l) with
      | None => None
      | Some s =>
          match rd s with
          | RReturned (Some err) => Some (mkLsys s (LReport err))
          | RReturned None => Some (mkLsys s LReturned)
          | _ => Some (mkLsys s LReadLoop)
          end
      end
  | LReport err, InReceiving =>
      let s := inner l in
      Some (mkLsys (mkSys (transport_ s) (req s) (rd s)
                      (errChan s ++ [err]) (written s)) LSleep)
  | LSleep, InElapsed => Some (mkLsys (withRd (inner l) RDial) LReadLoop)
  | _, _ => None
  end.

Inductive laction : Type :=
| LReq (i : input)
| LListen (i : linput).

Definition linit : lsys := mkLsys init LReadLoop.

Section Codec.
Variable jsonUnmarshal : bytes -> error + list Message.

Definition lstep (a : laction) (l : lsys) : option lsys :=
  match a with
  | LReq i =>
      match reqStep jsonUnmarshal i (inner l) with
      | None => None
      | Some s => Some (mkLsys s (ls l))
      end
  | LListen i => listenStep i l
  end.

(** An interleaving of a caller of [request] with [listen]. *)
Fixpoint lrun (acts : list laction) (l : lsys) : option lsys :=
  match acts with
  | [] => Some l
  | a :: rest =>
      match lstep a l with
      | Some l' => lrun rest l'
      | None => None
      end
  end.
End Codec.

(** Whether an action is one of the caller. *)
Definition isReq (a : laction) : bool :=
  match a with LReq _ => true | LListen _ => false end.

(** What holds of every state [listen] and a caller can reach. *)
Record sound (l : lsys) : Prop := mkSound {
  counter_range : 0 <= openRequest (transport_ (inner l)) < 2 ^ 32;
  buffer_cap : cap (msgBuffer (transport_ (inner l))) = 100%nat;
  buffer_open : closed (msgBuffer (transport_ (inner l))) = false;
  buffer_bound : (length (buf (msgBuffer (transport_ (inner l)))) <= 100)%nat;
  ready_conn :
    ready (transport_ (inner l)) = true -> conn (transport_ (inner l)) = true;
  reader_pc :
    match rd (inner l) with
    | RDial | RReturned _ => ready (transport_ (inner l)) = false
    | RSend _ n | RStore n => 0 < n < 2 ^ 32
    | _ => True
    end;
  caller_pc :
    match req (inner l) with
    | QWriteJSON _ => conn (transport_ (inner l)) = true
    | _ => True
    end;
  listen_pc :
    match ls l with
    | LReadLoop => forall e, rd (inner l) <> RReturned e
    | LReport err => rd (inner l) = RReturned (Some err)
    | LSleep => exists err, rd (inner l) = RReturned (Some err)
    | LReturned => rd (inner l) = RReturned None
    end;
}.

End WebsocketListen.

(** ** Runs of a connect reply and bursts of requests *)

Module ClientRuns.

Import Client.



Section WithClient.
Context {P : Type}.



(** A caller that calls [Subscribe] once for every element of [reqs],
  with no turn of the loop in between. *)
Fixpoint subscribeAll (c : t P) (reqs : list subscriptionRequest)
: outcome (t P) :=
match reqs with
| [] => Returned c
| rq :: rest =>
    match Subscribe c (subscription rq) (msgChan rq) with
    | Returned c => subscribeAll c rest
    | Panicked why => Panicked why
    | Blocked => Blocked
    end
end.

End WithClient.

End ClientRuns.

(** ** More sample values *)

Module MoreSamples.

Import Samples.

Definition subscribeRefused : Message :=
  mkMessage MetaSubscribe "client-1" false "403::denied" None "" [] "" ["/a"] "".
Definition unsubscribeRefused : Message :=
  mkMessage MetaUnsubscribe "client-1" false "404::unknown" None "" [] "" ["/a"] "".

(** A transport that cannot reach its server. *)
Definition offline (_ : list Message) : goret :=
  ([], Some (ErrOther "connection refused")).

Definition tracing : MessageExtender := mkExt 7 (fun m => m) (fun m => m).

(** An HTTP client whose server answers 200 with an empty body. *)
Definition answering : BayeuxTransportHttp.t :=
  BayeuxTransportHttp.mk
    (fun _ => (Some (BayeuxTransportHttp.mkResponse 200 "200 OK" (inr [])), None))
    "https://example.com".

(** An encoder that rejects every batch. *)
Definition failingEncoder (_ : list Message) : error + bytes :=
  inl (ErrOther "unsupported value").

(** [listen] dials, then finds the context cancelled. *)
Definition dialThenCancel : list WebsocketListen.laction :=
  [WebsocketListen.LListen
     (WebsocketListen.InReader (BayeuxTransportWebsocket.Dialled None));
   WebsocketListen.LListen
     (WebsocketListen.InReader BayeuxTransportWebsocket.Cancelled)].

(** A caller that has written its request and not yet counted it. *)
Definition wroteRequest : BayeuxTransportWebsocket.sys :=
  BayeuxTransportWebsocket.mkSys
    (BayeuxTransportWebsocket.mk true (make 100) 0 true)
    BayeuxTransportWebsocket.QAdd BayeuxTransportWebsocket.RRead [] [[]].

Definition forC : Client.subscriptionRequest :=
  Client.mkSubscriptionRequest "/c" (userChan 2).
Definition forD : Client.subscriptionRequest :=
  Client.mkSubscriptionRequest "/d" (userChan 3).

(** The sample session with no trigger queued, and the same with two
    subscribe requests, or two unsubscribe requests, queued. *)
Definition idle : Client.world (served BayeuxTransportWebsocket.t) :=
  Client.mkWorld
    (Client.setConnectRequestChannel (Client.self (session [])) (make 1))
    None [] ∅ [].
Definition withRequests : Client.world (served BayeuxTransportWebsocket.t) :=
  Client.mkWorld
    (Client.setSubscribeRequestChannel (Client.self idle)
       (mkChan 10 [forC; forD] false))
    None [] ∅ [].
Definition withRemovals : Client.world (served BayeuxTransportWebsocket.t) :=
  Client.mkWorld
    (Client.setUnsubscribeRequestChannel (Client.self idle)
       (mkChan 10 ["/a"; "/b"] false))
    None [] ∅ [].

End MoreSamples.

(** ** The stages of one call of the websocket [request] *)

Module WebsocketCall.

Import BayeuxTransportWebsocket.


(** No call is in progress, nothing is outstanding, the buffer is empty
    and the reader is not in the middle of handing a frame over. *)
Definition idle (s : sys) : Prop :=
  (req s = QIdle \/ exists r, req s = QReturned r) /\
  buf (msgBuffer (transport_ s)) = [] /\
  closed (msgBuffer (transport_ s)) = false /\
  openRequest (transport_ s) = 0 /\
  (forall raw n, rd s <> RSend raw n) /\
  (forall n, rd s <> RStore n).

(** The caller is inside [request] and has not yet counted its
    request. *)
Definition calling (s : sys) : Prop :=
  ((exists msg, req s = QLoadReady msg) \/
   (exists msg, req s = QWriteJSON msg) \/ req s = QAdd) /\
  buf (msgBuffer (transport_ s)) = [] /\
  closed (msgBuffer (transport_ s)) = false /\
  openRequest (transport_ s) = 0 /\
  (forall raw n, rd s <> RSend raw n) /\
  (forall n, rd s <> RStore n).

(** The caller stands at its receive and nothing has been put in the
    buffer; a frame the reader is about to put there found the counter
    positive. *)
Definition undelivered (s : sys) : Prop :=
  req s = QRecv /\
  buf (msgBuffer (transport_ s)) = [] /\
  closed (msgBuffer (transport_ s)) = false /\
  (forall raw n, rd s = RSend raw n -> 0 < n).

(** The caller stands at its receive and [raw] is the frame it will
    take. *)
Definition delivered (raw : bytes) (s : sys) : Prop :=
  req s = QRecv /\
  exists rest, buf (msgBuffer (transport_ s)) = raw :: rest.

End WebsocketCall.

(** * Properties *)

(** ** The protocol client *)

Section ProtocolClientProperties.
Context {T : Type} `{transport T}.
Import ConnectionStateMachine BayeuxClientT.

(** One pass of a hook over the slice leaves the slice as it was: the
    hook only ever writes the loop variable. *)
Lemma rangeBody_slice (hook : Message -> Message) (fr : frame) (i : nat) :
  slice (rangeBody hook fr i) = slice fr.
Proof. unfold rangeBody. destruct (slice fr !! i); reflexivity. Qed.

Lemma fold_rangeBody_slice (hook : Message -> Message) (idx : list nat) :
  forall fr, slice (fold_left (rangeBody hook) idx fr) = slice fr.
Proof.
  induction idx as [|i idx IH]; intros fr; simpl; [reflexivity|].
  rewrite IH. apply rangeBody_slice.
Qed.

Lemma rangeHook_slice (hook : Message -> Message) (fr : frame) :
  slice (rangeHook hook fr) = slice fr.
Proof. apply fold_rangeBody_slice. Qed.

Lemma fold_rangeHook_slice (hooks : list (Message -> Message)) :
  forall fr, slice (fold_left (fun fr h => rangeHook h fr) hooks fr) = slice fr.
Proof.
  induction hooks as [|h hooks IH]; intros fr; simpl; [reflexivity|].
  rewrite IH. apply rangeHook_slice.
Qed.

Lemma applyHooks_id (hooks : list (Message -> Message)) (ms : list Message) :
  applyHooks hooks ms = ms.
Proof. unfold applyHooks. apply fold_rangeHook_slice. Qed.

(** What [request] is, once the hooks are known to leave both batches
    alone. *)
Lemma request_unfold (b : t T) (ms : list Message) :
  pending (request b ms) = Some ms /\
  forall r, resume (request b ms) r = Ret r.
Proof.
  unfold request. simpl. rewrite applyHooks_id. split; [reflexivity|].
  intros [respMs [err|]]; [reflexivity|]. now rewrite applyHooks_id.
Qed.

Lemma request_sent (b : t T) (ms : list Message) reply :
  sent (request b ms) reply = [ms].
Proof. unfold request. simpl. rewrite applyHooks_id. now destruct (reply ms) as [? [?|]]. Qed.

Lemma request_result (b : t T) (ms : list Message) reply :
  result (request b ms) reply = reply ms.
Proof.
  unfold request. simpl. rewrite !applyHooks_id.
  destruct (reply ms) as [respMs [err|]]; simpl; [reflexivity|].
  now rewrite applyHooks_id.
Qed.

Lemma sent_bind {A B : Type} (p : proto A) (f : A -> proto B) reply :
  sent (bind p f) reply = sent p reply ++ sent (f (result p reply)) reply.
Proof.
  induction p as [a|ms k IH]; simpl; [reflexivity|]. now rewrite IH.
Qed.

Lemma result_bind {A B : Type} (p : proto A) (f : A -> proto B) reply :
  result (bind p f) reply = result (f (result p reply)) reply.
Proof. induction p as [a|ms k IH]; simpl; [reflexivity|]. apply IH. Qed.

(** C9. Extension hooks run on a copy of each message, so whatever they
    write is lost: with any list of registered extensions, the batch
    handed to the transport is the caller's batch and the batch returned
    to the caller is the transport's, exactly as with no extension
    registered. *)
Theorem request_discards_extension_writes
    (b : t T) (ms : list Message) (reply : list Message -> goret) :
  let plain := mk (stateMachine b) (client b) (state b) [] in
  sent (request b ms) reply = [ms] /\
  result (request b ms) reply = reply ms /\
  sent (request b ms) reply = sent (request plain ms) reply /\
  result (request b ms) reply = result (request plain ms) reply.
Proof.
  intros plain. rewrite !request_sent, !request_result. repeat split.
Qed.

(** Unfolds [Handshake] past a legal transition and the builder. *)
Ltac enter_handshake Hsm :=
  unfold Handshake; rewrite Hsm; cbn - [findHandshake];
  case_bool_decide; cbn - [findHandshake]; rewrite ?applyHooks_id.

(** C8. The handshake request carries version 1.0 and a list of supported
    connection types that always holds long-polling and holds websocket
    exactly when the owned transport is of type websocket. *)
Theorem handshake_request_contents (b : t T) (sm : ConnectionStateMachine.t) :
  ProcessEvent (stateMachine b) handshakeSent = inr sm ->
  exists m,
    pending (Handshake b) = Some [m] /\
    mChannel m = MetaHandshake /\
    mVersion m = "1.0" /\
    In ConnectionTypeLongPolling (mSupportedConnectionTypes m) /\
    (In ConnectionTypeWebsocket (mSupportedConnectionTypes m) <->
     transportType (client b) = ConnectionTypeWebsocket).
Proof.
  intros Hsm. enter_handshake Hsm.
  - eexists. split; [reflexivity|]. simpl.
    split; [reflexivity|]. split; [reflexivity|]. split; [now left|].
    split; intros _; [assumption|right; now left].
  - eexists. split; [reflexivity|]. simpl.
    split; [reflexivity|]. split; [reflexivity|]. split; [now left|].
    split; [intros [Hc|[]]; discriminate Hc|intros Hw; contradiction].
Qed.

Lemma handshakeSent_target (s sm : ConnectionStateMachine.t) :
  ProcessEvent s handshakeSent = inr sm -> sm = CONNECTING.
Proof. destruct s; simpl; congruence. Qed.

Lemma findHandshake_none (resp : list Message) :
  (forall m, In m resp -> mChannel m <> MetaHandshake) ->
  forall acc, fold_left
    (fun message m =>
       if bool_decide (mChannel m = MetaHandshake) then m else message)
    resp acc = acc.
Proof.
  induction resp as [|m resp IH]; intros Hno acc; simpl; [reflexivity|].
  rewrite bool_decide_eq_false_2 by (apply Hno; now left).
  apply IH. intros m' Hm'. apply Hno. now right.
Qed.

(** C3. How [Handshake] judges the reply batch it received: two or more
    messages are rejected with TooManyMessages whatever their channels;
    a batch of at most one message none of which is on the handshake
    channel (the empty batch included) is rejected with BadChannel; a
    single handshake message that is not successful is rejected with the
    error the server reported; and the call succeeds exactly on a single
    successful handshake message, whose client id it stores. *)
Theorem handshake_reply_validation
    (b : t T) (sm : ConnectionStateMachine.t) (resp : list Message) :
  ProcessEvent (stateMachine b) handshakeSent = inr sm ->
  let b1 := withStateMachine b sm in
  let verdict := resume (Handshake b) (resp, None) in
  ((2 <= length resp)%nat ->
     verdict = Ret ((resp, Some (HandshakeFailedError ErrTooManyMessages)), b1)) /\
  ((length resp <= 1)%nat ->
   (forall m, In m resp -> mChannel m <> MetaHandshake) ->
     verdict = Ret ((resp, Some (HandshakeFailedError ErrBadChannel)), b1)) /\
  (forall m, resp = [m] -> mChannel m = MetaHandshake -> mSuccessful m = false ->
     verdict = Ret ((resp, Some (HandshakeError (mError m))), b1)) /\
  (forall m, resp = [m] -> mChannel m = MetaHandshake -> mSuccessful m = true ->
     verdict = Ret ((resp, None),
                    mk CONNECTED (client b) (mClientID m) (exts b))) /\
  ((exists b2, verdict = Ret ((resp, None), b2)) <->
   (exists m, resp = [m] /\ mChannel m = MetaHandshake /\ mSuccessful m = true)).
Proof.
  intros Hsm b1 verdict.
  assert (Hverdict : verdict =
    if bool_decide (1 < length resp)%nat then
      Ret ((resp, Some (HandshakeFailedError ErrTooManyMessages)), b1)
    else
      if bool_decide (mChannel (findHandshake resp) = emptyChannel) then
        Ret ((resp, Some (HandshakeFailedError ErrBadChannel)), b1)
      else if negb (mSuccessful (findHandshake resp)) then
        Ret ((resp, Some (HandshakeError (mError (findHandshake resp)))), b1)
      else
        Ret ((resp, None),
             mk CONNECTED (client b) (mClientID (findHandshake resp)) (exts b))).
  { subst verdict b1. pose proof (handshakeSent_target _ _ Hsm) as ->.
    enter_handshake Hsm; reflexivity. }
  clearbody verdict. subst verdict.
  assert (Hone : forall m, mChannel m = MetaHandshake ->
                           findHandshake [m] = m).
  { intros m Hm. unfold findHandshake. simpl. now rewrite bool_decide_eq_true_2. }
  split; [|split; [|split; [|split]]].
  - intros Hlen. now rewrite bool_decide_eq_true_2 by lia.
  - intros Hlen Hno. rewrite bool_decide_eq_false_2 by lia.
    unfold findHandshake. rewrite (findHandshake_none resp Hno). reflexivity.
  - intros m -> Hch Hs. simpl. rewrite (Hone m Hch).
    rewrite bool_decide_eq_false_2 by (rewrite Hch; discriminate).
    now rewrite Hs.
  - intros m -> Hch Hs. simpl. rewrite (Hone m Hch).
    rewrite bool_decide_eq_false_2 by (rewrite Hch; discriminate).
    now rewrite Hs.
  - split.
    + intros [b2 Hb2].
      destruct resp as [|m [|m' rest]]; simpl in Hb2.
      * discriminate Hb2.
      * unfold findHandshake in Hb2. simpl in Hb2.
        destruct (bool_decide (mChannel m = MetaHandshake)) eqn:Hch.
        -- apply bool_decide_eq_true_1 in Hch.
           rewrite bool_decide_eq_false_2 in Hb2 by (rewrite Hch; discriminate).
           destruct (mSuccessful m) eqn:Hs; simpl in Hb2; [|discriminate Hb2].
           exists m. repeat split; assumption.
        -- simpl in Hb2. discriminate Hb2.
      * discriminate Hb2.
    + intros (m & -> & Hch & Hs). simpl. rewrite (Hone m Hch).
      rewrite bool_decide_eq_false_2 by (rewrite Hch; discriminate).
      rewrite Hs. simpl. eexists. reflexivity.
Qed.

Lemma notConnected_true (b : t T) :
  IsConnected (stateMachine b) = false \/ GetClientID b = "" ->
  notConnected b = true.
Proof.
  unfold notConnected. intros [Hc|Hid].
  - now rewrite Hc.
  - rewrite (bool_decide_eq_true_2 _ Hid). apply orb_true_r.
Qed.

(** C5. While the state machine is not connected or no client id is
    stored, Connect, Subscribe, Unsubscribe and Disconnect fail with
    ClientNotConnected (on its own for Connect, as the cause of the
    operation's error for the others), leave the client as it was and
    hand nothing to the transport. *)
Theorem calls_fail_when_not_connected
    (b : t T) (subs : list Channel) (reply : list Message -> goret) :
  IsConnected (stateMachine b) = false \/ GetClientID b = "" ->
  (Connect b = Ret (([], Some ErrClientNotConnected), b) /\
   Subscribe b subs =
     Ret (([], Some (SubscriptionFailedError subs ErrClientNotConnected)), b) /\
   Unsubscribe b subs =
     Ret (([], Some (UnsubscribeFailedError subs ErrClientNotConnected)), b) /\
   Disconnect b =
     Ret (([], Some (DisconnectFailedError (Some ErrClientNotConnected))), b)) /\
  (sent (Connect b) reply = [] /\
   sent (Subscribe b subs) reply = [] /\
   sent (Unsubscribe b subs) reply = [] /\
   sent (Disconnect b) reply = []).
Proof.
  intros Hnc. apply notConnected_true in Hnc.
  unfold Connect, Subscribe, Unsubscribe, Disconnect. rewrite Hnc.
  repeat split.
Qed.

(** Only a [Handshake] that returns without error changes the stored
    client id. *)
Lemma perform_keeps_client_id (b : t T) (c : call) reply :
  let r := result (perform b c) reply in
  GetClientID (snd r) = GetClientID b \/
  (c = callHandshake /\ snd (fst r) = None).
Proof.
  destruct c; simpl.
  - unfold Handshake.
    destruct (ProcessEvent (stateMachine b) handshakeSent) as [e|sm];
      [now left|].
    cbn - [findHandshake]. case_bool_decide; cbn - [findHandshake];
      rewrite ?applyHooks_id;
      (match goal with
       | |- context [reply ?ms] => destruct (reply ms) as [resp [e|]]
       end); cbn - [findHandshake]; try (now left);
      rewrite ?applyHooks_id;
      repeat (case_match; cbn - [findHandshake]); auto.
  - unfold Connect. destruct (notConnected b); [now left|]. simpl.
    rewrite applyHooks_id.
    destruct (reply _) as [resp [e|]]; simpl; [now left|].
    rewrite applyHooks_id. destruct (firstFailure _ _); now left.
  - unfold Subscribe. destruct (notConnected b); [now left|].
    destruct (addSubscriptions _ _ _) as [e|bd]; [now left|]. simpl.
    rewrite applyHooks_id.
    destruct (reply _) as [resp [e|]]; simpl; [now left|].
    rewrite applyHooks_id. destruct (firstFailure _ _); now left.
  - unfold Unsubscribe. destruct (notConnected b); [now left|].
    destruct (addSubscriptions _ _ _) as [e|bd]; [now left|]. simpl.
    rewrite applyHooks_id.
    destruct (reply _) as [resp [e|]]; simpl; [now left|].
    rewrite applyHooks_id. destruct (firstFailure _ _); now left.
  - unfold Disconnect. destruct (notConnected b); [now left|]. simpl.
    rewrite applyHooks_id.
    destruct (reply _) as [resp [e|]]; simpl; [now left|].
    rewrite applyHooks_id. destruct (firstFailure _ _); now left.
Qed.

(** Before any successful [Handshake] no client id is stored: after any
    sequence of calls on a new client in which every [Handshake] failed,
    the client id is still empty, so the next Connect, Subscribe,
    Unsubscribe or Disconnect fails as not connected. *)
Lemma no_client_id_before_handshake (cs : list call) reply :
  forall b : t T,
    GetClientID b = "" ->
    (forall r, In (callHandshake, r) (fst (performAll b cs reply)) ->
               snd r <> None) ->
    GetClientID (snd (performAll b cs reply)) = "".
Proof.
  induction cs as [|c cs IH]; intros b Hid Hfail; simpl; [exact Hid|].
  apply IH.
  - destruct (perform_keeps_client_id b c reply) as [Hk|[-> Hnone]].
    + now rewrite Hk.
    + exfalso. apply (Hfail (fst (result (perform b callHandshake) reply)));
        [now left|exact Hnone].
  - intros r Hin. apply Hfail. now right.
Qed.

End ProtocolClientProperties.

(** ** The long-polling transport *)

Section HttpProperties.
Import BayeuxTransportHttp.
Variable jsonEncode : list Message -> error + bytes.
Variable jsonDecode : bytes -> error + list Message.
Variable NewRequestWithContext : string -> string -> bytes -> error + Request.

Local Abbreviation request :=
  (BayeuxTransportHttp.request jsonEncode jsonDecode NewRequestWithContext).

(** A response whose status is not 200 becomes a BadResponse error with
    the status code, the status text and the body read from it. *)
Lemma parseResponse_non_200 (r : Response) (body : bytes) :
  StatusCode r <> 200 -> Body r = inr body ->
  parseResponse jsonDecode (Some r) =
  Returned ([], Some (BadResponseError (StatusCode r) (Status r) (Some body))).
Proof.
  intros Hcode Hbody. unfold parseResponse.
  rewrite bool_decide_eq_true_2 by assumption. now rewrite Hbody.
Qed.

(** C2. Once the batch is encoded and the request is built: a response
    with a status other than 200 makes the call fail with a BadResponse
    error that carries the status code, the status text and the body;
    but when the HTTP client fails without a response, the call reads the
    status of the nil response and panics instead of returning a
    BadResponse error. *)
Theorem http_request_failure_paths
    (t : BayeuxTransportHttp.t) (ms : list Message) (buf : bytes) (req : Request) :
  jsonEncode ms = inr buf ->
  NewRequestWithContext "POST" (serverAddress t) buf = inr req ->
  (forall r body,
      Do t (setHeaders req) = (Some r, None) ->
      StatusCode r <> 200 -> Body r = inr body ->
      request t ms =
      Returned ([], Some (BadResponseError (StatusCode r) (Status r) (Some body)))) /\
  (forall err,
      Do t (setHeaders req) = (None, Some err) ->
      request t ms =
      Panicked "invalid memory address or nil pointer dereference").
Proof.
  intros Henc Hreq. unfold BayeuxTransportHttp.request.
  rewrite Henc, Hreq. split.
  - intros r body Hdo Hcode Hbody. rewrite Hdo.
    now apply parseResponse_non_200.
  - intros err Hdo. now rewrite Hdo.
Qed.

End HttpProperties.

(** ** The websocket transport *)

Section WebsocketProperties.
Import BayeuxTransportWebsocket.
Variable jsonUnmarshal : bytes -> error + list Message.

Local Abbreviation reqStep := (BayeuxTransportWebsocket.reqStep jsonUnmarshal).
Local Abbreviation step := (BayeuxTransportWebsocket.step jsonUnmarshal).
Local Abbreviation run := (BayeuxTransportWebsocket.run jsonUnmarshal).
Local Abbreviation answerOf := (BayeuxTransportWebsocket.unmarshal jsonUnmarshal).

Lemma run_app (xs ys : list action) (s : sys) :
  run (xs ++ ys) s =
  match run xs s with Some s' => run ys s' | None => None end.
Proof.
  revert s. induction xs as [|a xs IH]; intros s; simpl; [reflexivity|].
  destruct (step a s); [apply IH|reflexivity].
Qed.











(** *** One call from its entry to its return *)

Import WebsocketCall.

Ltac split_sys s :=
  let c := fresh "c" in let k := fresh "k" in let b := fresh "b" in
  let cl := fresh "cl" in let n := fresh "n" in let rdy := fresh "rdy" in
  let q := fresh "q" in let r := fresh "r" in let e := fresh "e" in
  let w := fresh "w" in
  destruct s as [[c [k b cl] n rdy] q r e w];
  cbv [idle calling undelivered delivered waiting transport_ req rd errChan
       written msgBuffer openRequest ready conn buf closed cap] in *.













End WebsocketProperties.

(** ** The session loop *)

Section SessionLoopProperties.
Context {P : Type} `{ProtocolClient P}.
Import Client.

(** *** Delivery of a connect reply *)

(** Whatever the reply, its last message is still in the local batch
    when the delivery loop is over; nothing after the loop sends that
    batch. *)
Lemma deliverMessages_keeps_last (ms : list Message) :
  forall (w : world P) (b : list Message) (lc : Channel) (d : delivery) (m : Message),
    deliverMessages w b lc ms = inr (Returned d) ->
    last (b ++ ms) = Some m ->
    exists pre, batch d = pre ++ [m].
Proof.
  induction ms as [|m1 ms IH]; intros w b lc d m Hd Hlast.
  - simpl in Hd. injection Hd as <-. simpl.
    rewrite app_nil_r in Hlast. now apply last_Some in Hlast.
  - simpl in Hd. repeat case_bool_decide.
    + apply (IH _ _ _ _ _ Hd). now rewrite <- app_assoc.
    + apply (IH _ _ _ _ _ Hd). now rewrite <- app_assoc.
    + destruct (subscriptionsMap.Get _ lc) as [err|q]; [discriminate Hd|].
      destruct (deliver w q b) as [w'| |]; try discriminate Hd.
      apply (IH _ _ _ _ _ Hd).
      rewrite last_app in Hlast. simpl.
      destruct (last (m1 :: ms)) as [y|] eqn:Hy; [exact Hlast|].
      rewrite last_cons in Hy. destruct (last ms); discriminate Hy.
Qed.

Lemma deliverMessages_error (ms : list Message) :
  forall (w : world P) (b : list Message) (lc : Channel) (err : error),
    deliverMessages w b lc ms = inl err ->
    exists ch, err = ErrNotSubscribed ch.
Proof.
  induction ms as [|m ms IH]; intros w b lc err Hd; [discriminate Hd|].
  simpl in Hd. repeat case_bool_decide; try exact (IH _ _ _ _ Hd).
  unfold subscriptionsMap.Get in Hd.
  destruct (subscriptions (self w) !! lc) as [q|].
  - destruct (deliver w q b) as [w'| |]; try discriminate Hd.
    exact (IH _ _ _ _ Hd).
  - injection Hd as <-. now exists lc.
Qed.

(** *** Queues *)

(** C7. [NewClient] makes the subscribe, unsubscribe, connect-trigger and
    inbound-message queues with capacities 10, 10, 1 and 5, but the
    handshake-trigger queue with capacity 0; the loop, which is the only
    receiver of that queue, therefore blocks for good when a message of a
    connect reply advises a handshake and it sends the trigger. *)
Theorem NewClient_handshake_queue_unbuffered
    (bc : P) (opts : list (option Option_)) :
  exists c,
    NewClient (inr bc) opts = inr c /\
    cap (subscribeRequestChannel c) = 10%nat /\
    cap (unsubscribeRequestChannel c) = 10%nat /\
    cap (connectRequestChannel c) = 1%nat /\
    cap (connectMessageChannel c) = 5%nat /\
    cap (handshakeRequestChannel c) = 0%nat /\
    (forall cx errs queues tms interval rest ch id ok err v sct ct sub mid,
        handleAdvice (mkWorld c cx errs queues tms)
          (mkMessage ch id ok err (Some (mkAdvice "handshake" interval))
             v sct ct sub mid :: rest) = Blocked) /\
    (forall cx errs queues tms interval ch id ok err v sct ct sub mid,
        exists w',
          pollTurn
            (mkWorld
               (setConnectMessageChannel c
                  (mkChan 5
                     [[mkMessage ch id ok err
                         (Some (mkAdvice "handshake" interval))
                         v sct ct sub mid]] false))
               cx errs queues tms)
            caseConnectMessage = Some (Stuck w')).
Proof.
  unfold NewClient. eexists. split; [reflexivity|].
  do 5 (split; [reflexivity|]). split.
  - intros. reflexivity.
  - intros. eexists. reflexivity.
Qed.

(** *** Disconnect *)

Lemma close_Some {A : Type} (q q' : chan A) :
  close q = Some q' -> closed q' = true /\ buf q' = buf q /\ cap q' = cap q.
Proof.
  unfold close. destruct (closed q); [discriminate|].
  intros [= <-]. repeat split.
Qed.

(** C10. Whenever [Disconnect] returns, it returns the error of the
    protocol-level Disconnect, whatever that is, and has closed the five
    queues; a later [Subscribe] or [Unsubscribe] then sends on a closed
    queue.  On a client whose queues are open, it does return. *)
Theorem Disconnect_closes_all_queues (c : t P) :
  let err := snd (fst (pDisconnect (client c))) in
  (forall r, Disconnect c = Returned r ->
     fst r = err /\ queuesClosed (snd r) /\
     (forall ch q, Subscribe (snd r) ch q = Panicked "send on closed channel") /\
     (forall ch, Unsubscribe (snd r) ch = Panicked "send on closed channel")) /\
  (queuesOpen c -> exists c', Disconnect c = Returned (err, c')).
Proof.
  intros err. subst err. unfold Disconnect.
  destruct (pDisconnect (client c)) as [[ms err] p]. simpl. split.
  - intros r Hr.
    destruct (close (subscribeRequestChannel c)) as [q1|] eqn:H1; [|discriminate].
    destruct (close (unsubscribeRequestChannel c)) as [q2|] eqn:H2; [|discriminate].
    destruct (close (connectRequestChannel c)) as [q3|] eqn:H3; [|discriminate].
    destruct (close (connectMessageChannel c)) as [q4|] eqn:H4; [|discriminate].
    destruct (close (handshakeRequestChannel c)) as [q5|] eqn:H5; [|discriminate].
    injection Hr as <-. simpl.
    apply close_Some in H1 as (C1 & _), H2 as (C2 & _), H3 as (C3 & _),
      H4 as (C4 & _), H5 as (C5 & _).
    split; [reflexivity|]. split; [repeat split; assumption|].
    split; intros; unfold Subscribe, Unsubscribe, send; simpl.
    + now rewrite C1.
    + now rewrite C2.
  - intros (O1 & O2 & O3 & O4 & O5). unfold close.
    rewrite O1, O2, O3, O4, O5. eexists. reflexivity.
Qed.

(** [Disconnect] leaves the shutdown channel as it found it. *)
Lemma Disconnect_keeps_shutdown (c : t P) (r : option error * t P) :
  Disconnect c = Returned r -> shutdown (snd r) = shutdown c.
Proof.
  unfold Disconnect. destruct (pDisconnect (client c)) as [[ms err] p].
  repeat (match goal with
          | |- context [close ?q] => destruct (close q); [|discriminate]
          end).
  now intros [= <-].
Qed.

(** *** How the loop ends *)

Lemma afterEnqueue_goes_on (w : world P) :
  (forall w', afterEnqueue w <> BreakLoop w') /\
  (forall err w', afterEnqueue w <> ReturnErr err w').
Proof.
  unfold afterEnqueue. destruct (enqueueConnectRequest (self w)); split;
    intros; discriminate.
Qed.

Lemma addSubscriptions_ignoreError (reqs : list subscriptionRequest) :
  forall (w w' : world P) (o : option error),
    addSubscriptions w reqs = (o, w') ->
    ignoreError (self w') = ignoreError (self w).
Proof.
  induction reqs as [|rq reqs IH]; intros w w' o Ha; simpl in Ha.
  - now injection Ha as <- <-.
  - destruct (subscriptionsMap.Add _ _ _) as [err|m].
    + destruct (ignoreError (self w) err).
      * now rewrite (IH _ _ _ Ha).
      * now injection Ha as <- <-.
    + now rewrite (IH _ _ _ Ha).
Qed.

Lemma addSubscriptions_error (reqs : list subscriptionRequest) :
  forall (w w' : world P) (err : error),
    addSubscriptions w reqs = (Some err, w') ->
    ignoreError (self w) err = false.
Proof.
  induction reqs as [|rq reqs IH]; intros w w' err Ha; simpl in Ha.
  - discriminate Ha.
  - destruct (subscriptionsMap.Add _ _ _) as [e|m].
    + destruct (ignoreError (self w) e) eqn:Hig.
      * exact (IH _ _ _ Ha).
      * now injection Ha as <- <-.
    + exact (IH _ _ _ Ha).
Qed.

(** A turn leaves the loop without error only through the shutdown
    case. *)
Lemma pollTurn_break (w w' : world P) (k : selectCase) :
  pollTurn w k = Some (BreakLoop w') -> k = caseShutdown.
Proof.
  intros Hturn. destruct k; [reflexivity|..]; exfalso;
    cbn [pollTurn] in Hturn;
    repeat (case_match; simplify_eq);
    try (eapply (proj1 (afterEnqueue_goes_on _)); eassumption).
Qed.

(** A turn returns an error only through the cancellation case, with
    the error of the context, or with a fatal error of the case it
    took. *)
Lemma pollTurn_return (w w' : world P) (k : selectCase) (err : error) :
  pollTurn w k = Some (ReturnErr err w') ->
  (k = caseCtxDone /\ ctx w = Some err /\ w' = w) \/
  (k = caseSubscribe /\ ignoreError (self w) err = false) \/
  (k = caseUnsubscribe /\ ignoreError (self w) err = false) \/
  (k = caseHandshake /\ snd (fst (pHandshake (client (self w)))) = Some err) \/
  (k = caseConnectRequest /\
   (snd (fst (pConnect (client (self w)))) = Some err \/
    exists ch, err = ErrNotSubscribed ch)).
Proof.
  intros Hturn. destruct k; cbn [pollTurn] in Hturn.
  - repeat (case_match; simplify_eq).
  - left. destruct (ctx w); simplify_eq. auto.
  - right; left. split; [reflexivity|].
    destruct (recv _ _) as [[subReq q]|]; [|discriminate].
    destruct (getSubscriptionRequests _) as [[[subReqs channels] c]|] eqn:Hg;
      [|discriminate].
    unfold getSubscriptionRequests in Hg.
    destruct (drain _) as [[reqs q']|]; simplify_eq.
    simpl in Hturn.
    destruct (pSubscribe _ _) as [[ms [e|]] p].
    + simpl in Hturn. destruct (ignoreError (self w) e) eqn:Hig; simplify_eq.
      assumption.
    + destruct (addSubscriptions _ _) as [[e|] w1] eqn:Ha.
      * simplify_eq. now apply addSubscriptions_error in Ha.
      * simplify_eq. exfalso.
        eapply (proj2 (afterEnqueue_goes_on _)); eassumption.
  - right; right; left. split; [reflexivity|].
    destruct (recv _ _) as [[unsubReq q]|]; [|discriminate].
    destruct (getUnsubscriptionRequests _) as [[channels c]|] eqn:Hg;
      [|discriminate].
    unfold getUnsubscriptionRequests in Hg.
    destruct (drain _) as [[reqs q']|]; simplify_eq.
    simpl in Hturn.
    destruct (pUnsubscribe _ _) as [[ms [e|]] p]; simpl in Hturn.
    + destruct (ignoreError (self w) e) eqn:Hig; simplify_eq. assumption.
    + discriminate.
  - right; right; right; left. split; [reflexivity|].
    destruct (recv _ _) as [[u q]|]; [|discriminate]. simpl in Hturn.
    destruct (pHandshake _) as [[ms [e|]] p]; simpl in *.
    + now simplify_eq.
    + simplify_eq. exfalso.
      eapply (proj2 (afterEnqueue_goes_on _)); eassumption.
  - repeat (case_match; simplify_eq).
  - right; right; right; right. split; [reflexivity|].
    destruct (recv _ _) as [[u q]|]; [|discriminate]. simpl in Hturn.
    destruct (pConnect _) as [[ms [e|]] p]; simpl in *.
    + left. now simplify_eq.
    + right. destruct (deliverMessages _ _ _ _) as [e|[d| |]] eqn:Hd;
        simplify_eq. now apply deliverMessages_error in Hd.
  - exfalso. destruct (ready w caseDefault); simplify_eq.
    eapply (proj2 (afterEnqueue_goes_on _)); eassumption.
Qed.

(** A run of the loop that returns does so in the turn that follows a
    prefix of turns that all went on. *)
Lemma poll_returned (sched : list selectCase) :
  forall (w w' : world P) (o : option error),
    poll sched w = PollReturned o w' ->
    exists pre k post w0,
      sched = pre ++ k :: post /\
      poll pre w = PollRunning w0 /\
      pollTurn w0 k =
        Some (match o with
              | None => BreakLoop w'
              | Some err => ReturnErr err w'
              end).
Proof.
  induction sched as [|k sched IH]; intros w w' o Hp; [discriminate Hp|].
  simpl in Hp. destruct (pollTurn w k) as [[w1|w1|e w1|w1|why]|] eqn:Hk;
    try discriminate Hp.
  - destruct (IH _ _ _ Hp) as (pre & k' & post & w0 & -> & Hpre & Hturn).
    exists (k :: pre), k', post, w0. split; [reflexivity|].
    split; [|exact Hturn]. simpl. now rewrite Hk.
  - injection Hp as <- <-. now exists [], k, sched, w.
  - injection Hp as <- <-. now exists [], k, sched, w.
Qed.

(** C6, as amended. The loop returns the error of the context whenever
    its select takes the cancellation case, and [start] forwards every
    error the loop returns to the error stream; the loop leaves without
    error only through the shutdown case; and every other way out is a
    fatal error of the case taken: a Subscribe, Unsubscribe or
    registration error that is not ignored, a Handshake error, a Connect
    error, or the lookup of an unregistered channel during delivery. *)
Theorem session_loop_exits (w : world P) (sched : list selectCase) :
  (forall err, ctx w = Some err ->
     pollTurn w caseCtxDone = Some (ReturnErr err w) /\
     poll (caseCtxDone :: sched) w = PollReturned (Some err) w) /\
  (forall w' o,
     poll sched w = PollReturned o w' ->
     exists pre k post w0,
       sched = pre ++ k :: post /\ poll pre w = PollRunning w0 /\
       match o with
       | None => k = caseShutdown
       | Some err =>
         (k = caseCtxDone /\ ctx w0 = Some err /\ w' = w0) \/
         (k = caseSubscribe /\ ignoreError (self w0) err = false) \/
         (k = caseUnsubscribe /\ ignoreError (self w0) err = false) \/
         (k = caseHandshake /\
          snd (fst (pHandshake (client (self w0)))) = Some err) \/
         (k = caseConnectRequest /\
          (snd (fst (pConnect (client (self w0)))) = Some err \/
           exists ch, err = ErrNotSubscribed ch))
       end) /\
  (forall ms p err w',
     pHandshake (client (self w)) = ((ms, None), p) ->
     poll sched
       (setSelf w
          (match subscriptionsMap.Add (subscriptions (self w)) MetaConnect
                   connectMessageChannelRef with
           | inl _ => setClient (self w) p
           | inr m => setSubscriptions (setClient (self w) p) m
           end)) = PollReturned (Some err) w' ->
     start sched w = StartReturned (sendError w' err) /\
     errors (sendError w' err) = errors w' ++ [err]).
Proof.
  split; [|split].
  - intros err Hctx. simpl. now rewrite Hctx.
  - intros w' o Hp.
    destruct (poll_returned _ _ _ _ Hp) as (pre & k & post & w0 & -> & Hpre & Hk).
    exists pre, k, post, w0. split; [reflexivity|]. split; [exact Hpre|].
    destruct o as [err|].
    + exact (pollTurn_return _ _ _ _ Hk).
    + exact (pollTurn_break _ _ _ Hk).
  - intros ms p err w' Hh Hp. unfold start. rewrite Hh.
    destruct w as [[bc subs q1 q2 q3 q4 q5 q6 ig] cx errs uq tm].
    unfold setSelf, setClient, setSubscriptions in *. simpl in *.
    destruct (subscriptionsMap.Add subs MetaConnect connectMessageChannelRef);
      rewrite Hp; split; reflexivity.
Qed.

End SessionLoopProperties.

(** ** The properties at sample values *)

Import Samples.

(** C1. On the reply [/a, /a, /b] the connect case delivers the run
    [/a, /a] to the queue registered for /a and goes on to the next turn
    without delivering the final run [/b] to the queue registered for /b:
    the last run of a reply is left in the local batch. *)
Theorem connect_reply_final_run_dropped :
  match Client.pollTurn (session threeEvents) Client.caseConnectRequest with
  | Some (Client.Continue w) =>
      Client.userQueues w !! 0%nat = Some [[event "/a" "1"; event "/a" "2"]] /\
      Client.userQueues w !! 1%nat = None /\
      buf (Client.connectMessageChannel (Client.self w)) = []
  | _ => False
  end.
Proof. vm_compute. repeat split. Qed.

(** C6, as stated, fails: with the context live and no Disconnect, the
    loop of a session whose server refuses the connect request ends by
    returning the Connect error, which is neither a clean exit nor the
    error of the context. *)
Lemma session_loop_exit_on_connect_failure :
  ~ (forall (sched : list Client.selectCase)
            (w w' : Client.world (served BayeuxTransportWebsocket.t))
            (o : option error),
        Client.poll sched w = Client.PollReturned o w' ->
        o = None \/ (exists err, Client.ctx w = Some err /\ o = Some err)).
Proof.
  intros Hclaim.
  destruct (Hclaim [Client.caseConnectRequest] (session [connectRefused])
              _ _ eq_refl) as [Hnone|(err & Hctx & _)].
  - discriminate Hnone.
  - discriminate Hctx.
Qed.

(** The counter is decremented by a load followed by a store.  When the
    caller takes its reply and a following call adds its unit between the
    two, the store overwrites that unit: the second caller waits with the
    counter at zero, so the reply to it will go to the error channel. *)
Example store_overwrites_following_add :
  exists s,
    BayeuxTransportWebsocket.run noCodec
      [BayeuxTransportWebsocket.Rd
         (BayeuxTransportWebsocket.Frame BayeuxTransportWebsocket.TextMessage []);
       BayeuxTransportWebsocket.Rd BayeuxTransportWebsocket.Tau;
       BayeuxTransportWebsocket.Rd BayeuxTransportWebsocket.Tau;
       BayeuxTransportWebsocket.Req BayeuxTransportWebsocket.Tau;
       BayeuxTransportWebsocket.Req (BayeuxTransportWebsocket.Call []);
       BayeuxTransportWebsocket.Req BayeuxTransportWebsocket.Tau;
       BayeuxTransportWebsocket.Req (BayeuxTransportWebsocket.Wrote None);
       BayeuxTransportWebsocket.Req BayeuxTransportWebsocket.Tau;
       BayeuxTransportWebsocket.Rd BayeuxTransportWebsocket.Tau]
      awaitingReply = Some s /\
    BayeuxTransportWebsocket.waiting s /\
    BayeuxTransportWebsocket.openRequest
      (BayeuxTransportWebsocket.transport_ s) = 0.
Proof. eexists. split; [vm_compute; reflexivity|]. repeat split. Qed.

(** *** Instances *)

Lemma http_request_failure_paths_witness :
  (noEncoder [] = inr [] /\
   plainRequest "POST" (BayeuxTransportHttp.serverAddress unreachable) [] =
     inr (BayeuxTransportHttp.mkRequest "POST" "https://example.com" [] [])) /\
  BayeuxTransportHttp.request noEncoder noCodec plainRequest unreachable [] =
    Panicked "invalid memory address or nil pointer dereference" /\
  BayeuxTransportHttp.request noEncoder noCodec plainRequest unavailable [] =
    Returned ([], Some (BadResponseError 503 "503 Service Unavailable" (Some []))).
Proof.
  split; [split; reflexivity|]. split.
  - apply (proj2 (http_request_failure_paths noEncoder noCodec plainRequest
                    unreachable [] [] _ eq_refl eq_refl)
             (ErrOther "connection refused")).
    reflexivity.
  - apply (proj1 (http_request_failure_paths noEncoder noCodec plainRequest
                    unavailable [] [] _ eq_refl eq_refl)
             (BayeuxTransportHttp.mkResponse 503 "503 Service Unavailable" (inr []))
             []).
    + reflexivity.
    + discriminate.
    + reflexivity.
Defined.

Lemma handshake_request_contents_witness :
  ConnectionStateMachine.ProcessEvent
    (BayeuxClientT.stateMachine freshClient) handshakeSent = inr CONNECTING /\
  exists m,
    pending (BayeuxClientT.Handshake freshClient) = Some [m] /\
    mChannel m = MetaHandshake /\
    mVersion m = "1.0" /\
    In ConnectionTypeLongPolling (mSupportedConnectionTypes m) /\
    (In ConnectionTypeWebsocket (mSupportedConnectionTypes m) <->
     transportType (BayeuxClientT.client freshClient) = ConnectionTypeWebsocket).
Proof.
  split; [reflexivity|].
  exact (handshake_request_contents freshClient CONNECTING eq_refl).
Defined.

Lemma handshake_reply_validation_witness :
  ConnectionStateMachine.ProcessEvent
    (BayeuxClientT.stateMachine freshClient) handshakeSent = inr CONNECTING /\
  resume (BayeuxClientT.Handshake freshClient) ([handshakeOk; handshakeOk], None) =
    Ret (([handshakeOk; handshakeOk],
          Some (HandshakeFailedError ErrTooManyMessages)),
         BayeuxClientT.withStateMachine freshClient CONNECTING) /\
  resume (BayeuxClientT.Handshake freshClient) ([], None) =
    Ret (([], Some (HandshakeFailedError ErrBadChannel)),
         BayeuxClientT.withStateMachine freshClient CONNECTING) /\
  resume (BayeuxClientT.Handshake freshClient) ([handshakeRefused], None) =
    Ret (([handshakeRefused], Some (HandshakeError "403::denied")),
         BayeuxClientT.withStateMachine freshClient CONNECTING) /\
  resume (BayeuxClientT.Handshake freshClient) ([handshakeOk], None) =
    Ret (([handshakeOk], None), connectedClient).
Proof.
  split; [reflexivity|]. split; [|split; [|split]].
  - pose proof (handshake_reply_validation freshClient CONNECTING
                  [handshakeOk; handshakeOk] eq_refl) as Hv.
    cbv zeta in Hv. apply (proj1 Hv). simpl. lia.
  - pose proof (handshake_reply_validation freshClient CONNECTING [] eq_refl) as Hv.
    cbv zeta in Hv. apply (proj1 (proj2 Hv)); [simpl; lia|].
    intros m [].
  - pose proof (handshake_reply_validation freshClient CONNECTING
                  [handshakeRefused] eq_refl) as Hv.
    cbv zeta in Hv.
    apply (proj1 (proj2 (proj2 Hv)) handshakeRefused); reflexivity.
  - pose proof (handshake_reply_validation freshClient CONNECTING
                  [handshakeOk] eq_refl) as Hv.
    cbv zeta in Hv.
    apply (proj1 (proj2 (proj2 (proj2 Hv))) handshakeOk); reflexivity.
Defined.

Lemma calls_fail_when_not_connected_witness :
  (ConnectionStateMachine.IsConnected (BayeuxClientT.stateMachine freshClient) = false \/
   BayeuxClientT.GetClientID freshClient = "") /\
  BayeuxClientT.Connect freshClient =
    Ret (([], Some ErrClientNotConnected), freshClient) /\
  sent (BayeuxClientT.Subscribe freshClient ["/a"]) (server []) = [].
Proof.
  split; [left; reflexivity|].
  pose proof (calls_fail_when_not_connected freshClient ["/a"] (server [])
                (or_introl eq_refl)) as [(Hc & _) (_ & Hs & _)].
  split; [exact Hc|exact Hs].
Defined.

(** The state of a transport once its read loop has dialled. *)
Example dialled_after_dial :
  BayeuxTransportWebsocket.run noCodec
    [BayeuxTransportWebsocket.Rd (BayeuxTransportWebsocket.Dialled None)]
    BayeuxTransportWebsocket.init = Some dialled.
Proof. reflexivity. Qed.


Lemma session_loop_exits_witness :
  Client.ctx cancelled = Some (ErrContext "context canceled") /\
  Client.pollTurn cancelled Client.caseCtxDone =
    Some (Client.ReturnErr (ErrContext "context canceled") cancelled).
Proof.
  split; [reflexivity|].
  apply (proj1 (session_loop_exits cancelled []) (ErrContext "context canceled")).
  reflexivity.
Defined.

Lemma Disconnect_closes_all_queues_witness :
  Client.queuesOpen (Client.self (sessionWith freshClient [])) /\
  exists c',
    Client.Disconnect (Client.self (sessionWith freshClient [])) =
    Returned (Some (DisconnectFailedError (Some ErrClientNotConnected)), c').
Proof.
  assert (Hopen : Client.queuesOpen (Client.self (sessionWith freshClient [])))
    by (repeat split).
  split; [exact Hopen|].
  exact (proj2 (Disconnect_closes_all_queues
                  (Client.self (sessionWith freshClient []))) Hopen).
Defined.

(** * Further properties *)

(** ** The protocol client: replies, state and extensions *)

Section ProtocolClientCalls.
Context {T : Type} `{transport T}.
Import ConnectionStateMachine BayeuxClientT.

Lemma firstFailure_None (ch : Channel) (resp : list Message) :
  (forall m, In m resp -> mChannel m = ch -> mSuccessful m = true) ->
  firstFailure ch resp = None.
Proof.
  intros Hall. unfold firstFailure.
  destruct (find _ resp) as [m|] eqn:Hf; [|reflexivity]. exfalso.
  apply find_some in Hf as [Hin Hm]. apply andb_true_iff in Hm as [Hc Hs].
  apply bool_decide_eq_true_1 in Hc. rewrite (Hall m Hin Hc) in Hs.
  discriminate Hs.
Qed.

Lemma firstFailure_first (ch : Channel) (pre post : list Message) (m : Message) :
  (forall x, In x pre -> mChannel x = ch -> mSuccessful x = true) ->
  mChannel m = ch -> mSuccessful m = false ->
  firstFailure ch (pre ++ m :: post) = Some m.
Proof.
  intros Hpre Hc Hs. unfold firstFailure.
  induction pre as [|x pre IH]; simpl.
  - now rewrite (bool_decide_eq_true_2 _ Hc), Hs.
  - destruct (bool_decide (mChannel x = ch)) eqn:Hx; simpl.
    + apply bool_decide_eq_true_1 in Hx.
      rewrite (Hpre x (or_introl eq_refl) Hx). simpl.
      apply IH. intros y Hy. apply Hpre. now right.
    + apply IH. intros y Hy. apply Hpre. now right.
Qed.

Lemma firstFailure_exists (ch : Channel) (resp : list Message) :
  (exists m, In m resp /\ mChannel m = ch /\ mSuccessful m = false) ->
  exists m, firstFailure ch resp = Some m.
Proof.
  intros (m & Hin & Hc & Hs). unfold firstFailure.
  destruct (find _ resp) as [x|] eqn:Hf; [now exists x|]. exfalso.
  pose proof (find_none _ _ Hf m Hin) as Hm. simpl in Hm.
  now rewrite (bool_decide_eq_true_2 _ Hc), Hs in Hm.
Qed.

(** X1. On a connected client [Connect] hands one batch to the
    transport.  A transport error comes back wrapped in
    ConnectionFailed with no messages; a reply in which some message on
    the connect channel is not successful comes back whole together
    with ConnectionFailed; any other reply, whatever the success flags
    of messages on other channels, comes back whole without error.  The
    client is the same afterwards in every case. *)
Theorem Connect_reply_verdict (b : t T) (resp : list Message) :
  notConnected b = false ->
  (exists req, pending (Connect b) = Some [req]) /\
  (forall r err,
      resume (Connect b) (r, Some err) =
      Ret (([], Some (ConnectionFailedError err)), b)) /\
  ((exists m, In m resp /\ mChannel m = MetaConnect /\ mSuccessful m = false) ->
   resume (Connect b) (resp, None) =
   Ret ((resp, Some (ConnectionFailedError ErrFailedToConnect)), b)) /\
  ((forall m, In m resp -> mChannel m = MetaConnect -> mSuccessful m = true) ->
   resume (Connect b) (resp, None) = Ret ((resp, None), b)).
Proof.
  intros Hc. unfold Connect. rewrite Hc. simpl. rewrite !applyHooks_id.
  split; [eexists; reflexivity|]. split; [reflexivity|]. split.
  - intros Hex. rewrite ?applyHooks_id.
    destruct (firstFailure_exists _ _ Hex) as [m ->]. reflexivity.
  - intros Hall. rewrite ?applyHooks_id.
    now rewrite (firstFailure_None _ _ Hall).
Qed.

Lemma addSubscriptions_Subscribe (subs : list Channel) :
  forall bd, exists bd',
    addSubscriptions SubscribeRequestBuilder.AddSubscription bd subs = inr bd'.
Proof. induction subs as [|s subs IH]; intros bd; simpl; eauto. Qed.

Lemma addSubscriptions_Unsubscribe (subs : list Channel) :
  forall bd, exists bd',
    addSubscriptions UnsubscribeRequestBuilder.AddSubscription bd subs = inr bd'.
Proof. induction subs as [|s subs IH]; intros bd; simpl; eauto. Qed.

(** X2. On a connected client, a reply to [Subscribe] whose first
    unsuccessful message on the subscribe channel is [m] makes the call
    fail with the channel list asked for and the error text of [m], and
    the reply itself is not returned; the same reply shape on
    [Unsubscribe] fails likewise but does return the reply.  A reply
    without such a message is returned without error by both. *)
Theorem Subscribe_reply_verdict
    (b : t T) (subs : list Channel) (pre post : list Message) (m : Message) :
  notConnected b = false ->
  ((forall x, In x pre -> mChannel x = MetaSubscribe -> mSuccessful x = true) ->
   mChannel m = MetaSubscribe -> mSuccessful m = false ->
   resume (Subscribe b subs) (pre ++ m :: post, None) =
   Ret (([], Some (SubscriptionFailedError subs (SubscribeError (mError m)))), b)) /\
  ((forall x, In x pre -> mChannel x = MetaUnsubscribe -> mSuccessful x = true) ->
   mChannel m = MetaUnsubscribe -> mSuccessful m = false ->
   resume (Unsubscribe b subs) (pre ++ m :: post, None) =
   Ret ((pre ++ m :: post,
         Some (UnsubscribeFailedError subs (UnsubscribeError (mError m)))), b)) /\
  (forall resp,
      (forall x, In x resp -> mChannel x = MetaSubscribe -> mSuccessful x = true) ->
      resume (Subscribe b subs) (resp, None) = Ret ((resp, None), b)) /\
  (forall resp,
      (forall x, In x resp -> mChannel x = MetaUnsubscribe -> mSuccessful x = true) ->
      resume (Unsubscribe b subs) (resp, None) = Ret ((resp, None), b)).
Proof.
  intros Hc. unfold Subscribe, Unsubscribe. rewrite Hc.
  destruct (addSubscriptions_Subscribe subs
              (SubscribeRequestBuilder.AddClientID
                 SubscribeRequestBuilder.NewSubscribeRequestBuilder
                 (GetClientID b))) as [bs ->].
  destruct (addSubscriptions_Unsubscribe subs
              (UnsubscribeRequestBuilder.AddClientID
                 UnsubscribeRequestBuilder.NewUnsubscribeRequestBuilder
                 (GetClientID b))) as [bu ->].
  simpl. rewrite !applyHooks_id. repeat split.
  - intros Hpre Hm Hs. rewrite ?applyHooks_id.
    now rewrite (firstFailure_first _ _ _ _ Hpre Hm Hs).
  - intros Hpre Hm Hs. rewrite ?applyHooks_id.
    now rewrite (firstFailure_first _ _ _ _ Hpre Hm Hs).
  - intros resp Hall. rewrite ?applyHooks_id.
    now rewrite (firstFailure_None _ _ Hall).
  - intros resp Hall. rewrite ?applyHooks_id.
    now rewrite (firstFailure_None _ _ Hall).
Qed.

(** X3. Connect, Subscribe, Unsubscribe and Disconnect never change the
    protocol client, whatever the transport answers: in particular
    Disconnect neither moves the state machine nor clears the client id,
    so the client passes the connected guard after it as before. *)
Theorem calls_leave_client_unchanged
    (b : t T) (c : call) (reply : list Message -> goret) :
  c <> callHandshake ->
  snd (result (perform b c) reply) = b /\
  notConnected (snd (result (perform b c) reply)) = notConnected b.
Proof.
  intros Hc.
  assert (Hsame : snd (result (perform b c) reply) = b);
    [|now rewrite Hsame].
  destruct c; simpl; [contradiction| | | |].
  - unfold Connect. destruct (notConnected b); [reflexivity|]. simpl.
    rewrite applyHooks_id.
    destruct (reply _) as [resp [e|]]; simpl; [reflexivity|].
    rewrite applyHooks_id. now destruct (firstFailure _ _).
  - unfold Subscribe. destruct (notConnected b); [reflexivity|].
    destruct (addSubscriptions _ _ _) as [e|bd]; [reflexivity|]. simpl.
    rewrite applyHooks_id.
    destruct (reply _) as [resp [e|]]; simpl; [reflexivity|].
    rewrite applyHooks_id. now destruct (firstFailure _ _).
  - unfold Unsubscribe. destruct (notConnected b); [reflexivity|].
    destruct (addSubscriptions _ _ _) as [e|bd]; [reflexivity|]. simpl.
    rewrite applyHooks_id.
    destruct (reply _) as [resp [e|]]; simpl; [reflexivity|].
    rewrite applyHooks_id. now destruct (firstFailure _ _).
  - unfold Disconnect. destruct (notConnected b); [reflexivity|]. simpl.
    rewrite applyHooks_id.
    destruct (reply _) as [resp [e|]]; simpl; [reflexivity|].
    rewrite applyHooks_id. now destruct (firstFailure _ _).
Qed.

(** What a [Handshake] that got past the transition returns and leaves,
    by case of the reply. *)
Lemma Handshake_result (b : t T) (sm : ConnectionStateMachine.t) reply :
  ProcessEvent (stateMachine b) handshakeSent = inr sm ->
  exists req,
    result (Handshake b) reply =
    match reply req with
    | (_, Some err) =>
        (([], Some (HandshakeFailedError err)), withStateMachine b sm)
    | (resp, None) =>
        if bool_decide (1 < length resp)%nat then
          ((resp, Some (HandshakeFailedError ErrTooManyMessages)),
           withStateMachine b sm)
        else if bool_decide (mChannel (findHandshake resp) = emptyChannel) then
          ((resp, Some (HandshakeFailedError ErrBadChannel)),
           withStateMachine b sm)
        else if negb (mSuccessful (findHandshake resp)) then
          ((resp, Some (HandshakeError (mError (findHandshake resp)))),
           withStateMachine b sm)
        else
          ((resp, None),
           mk CONNECTED (client b) (mClientID (findHandshake resp)) (exts b))
    end.
Proof.
  intros Hsm. pose proof (handshakeSent_target _ _ Hsm) as ->.
  unfold Handshake. rewrite Hsm. cbn - [findHandshake].
  case_bool_decide; cbn - [findHandshake]; rewrite ?applyHooks_id;
    (match goal with
     | |- context [reply ?ms] => exists ms; destruct (reply ms) as [resp [e|]]
     end); cbn - [findHandshake]; rewrite ?applyHooks_id;
    try reflexivity;
    repeat (case_bool_decide; cbn - [findHandshake]; try reflexivity);
    destruct (mSuccessful (findHandshake resp)); reflexivity.
Qed.

(** X4. [Handshake] does not take the transition back when it fails
    after it: whether the transport fails or the reply is rejected, the
    state machine stays where [handshakeSent] put it and the client id
    is untouched.  With the transitions of the connection state machine,
    which reject a second [handshakeSent] before a success, every later
    [Handshake] then fails with HandshakeFailed without handing anything
    to the transport. *)
Theorem failed_Handshake_is_not_undone
    (b : t T) (reply reply' : list Message -> goret) :
  let r := result (Handshake b) reply in
  snd (fst r) <> None ->
  GetClientID (snd r) = GetClientID b /\
  (forall sm, ProcessEvent (stateMachine b) handshakeSent = inr sm ->
              stateMachine (snd r) = sm) /\
  (exists err,
      Handshake (snd r) = Ret (([], Some (HandshakeFailedError err)), snd r)) /\
  sent (Handshake (snd r)) reply' = [].
Proof.
  intros r Hfail. subst r.
  destruct (ProcessEvent (stateMachine b) handshakeSent) as [e|sm] eqn:Hsm.
  - assert (Hr : Handshake b = Ret (([], Some (HandshakeFailedError e)), b))
      by (unfold Handshake; now rewrite Hsm).
    rewrite Hr in *. simpl. split; [reflexivity|]. split; [intros sm [=]|].
    rewrite Hr. split; [now exists e|reflexivity].
  - pose proof (handshakeSent_target _ _ Hsm) as ->.
    destruct (Handshake_result b CONNECTING reply Hsm) as [req Hr].
    rewrite Hr in *. clear Hr.
    assert (Hstuck : forall b' : t T,
               stateMachine b' = CONNECTING ->
               Handshake b' =
               Ret (([], Some (HandshakeFailedError
                                 (ErrInvalidTransition CONNECTING handshakeSent))),
                    b')).
    { intros b' Hb'. unfold Handshake. now rewrite Hb'. }
    destruct (reply req) as [resp [e|]]; simpl in *.
    + split; [reflexivity|]. split; [now intros sm [= <-]|].
      rewrite Hstuck by reflexivity. split; [eexists|]; reflexivity.
    + repeat (case_bool_decide; simpl in * );
        try (split; [reflexivity|]; split; [now intros sm [= <-]|];
             rewrite Hstuck by reflexivity; split; [eexists|]; reflexivity).
      destruct (mSuccessful (findHandshake resp)); simpl in *.
      * contradiction.
      * split; [reflexivity|]. split; [now intros sm [= <-]|].
        rewrite Hstuck by reflexivity. split; [eexists|]; reflexivity.
Qed.

(** X5. After a [Handshake] that succeeded on the message [m], the
    client stores the client id of [m]; [Connect] then passes the guard
    exactly when that id is not empty.  With an empty id it fails as not
    connected although the handshake succeeded; otherwise it hands the
    transport one connect message that carries the id and the type of
    the owned transport. *)
Theorem Connect_after_Handshake
    (b : t T) (sm : ConnectionStateMachine.t) (m : Message) :
  ProcessEvent (stateMachine b) handshakeSent = inr sm ->
  mChannel m = MetaHandshake -> mSuccessful m = true ->
  let r := result (Handshake b) (fun _ => ([m], None)) in
  snd (fst r) = None /\
  GetClientID (snd r) = mClientID m /\
  (mClientID m = "" ->
   Connect (snd r) = Ret (([], Some ErrClientNotConnected), snd r)) /\
  (mClientID m <> "" ->
   exists req,
     pending (Connect (snd r)) = Some [req] /\
     mChannel req = MetaConnect /\
     mClientID req = mClientID m /\
     mConnectionType req = transportType (client b)).
Proof.
  intros Hsm Hch Hs r. subst r.
  destruct (Handshake_result b sm (fun _ => ([m], None)) Hsm) as [req ->].
  simpl. unfold findHandshake. simpl.
  rewrite (bool_decide_eq_true_2 _ Hch).
  rewrite bool_decide_eq_false_2 by (rewrite Hch; discriminate).
  rewrite Hs. simpl. split; [reflexivity|]. split; [reflexivity|]. split.
  - intros Hid. unfold Connect, notConnected, GetClientID. simpl.
    now rewrite (bool_decide_eq_true_2 _ Hid).
  - intros Hid. unfold Connect, notConnected, GetClientID. simpl.
    rewrite (bool_decide_eq_false_2 _ Hid). simpl. rewrite applyHooks_id.
    eexists. split; [reflexivity|]. repeat split.
Qed.

(** X6. [UseExtension] keeps the list of extensions free of duplicates:
    it fails with AlreadyRegistered, leaving the client as it was,
    exactly when the extension is already in the list, and otherwise
    appends it after the others; so registering the same extension a
    second time always fails. *)
Theorem UseExtension_no_duplicates (b : t T) (ext : MessageExtender) :
  NoDup (map extId (exts b)) ->
  let r := UseExtension b ext in
  NoDup (map extId (exts (snd r))) /\
  (In (extId ext) (map extId (exts b)) ->
   r = (Some (AlreadyRegisteredError (extId ext)), b)) /\
  (~ In (extId ext) (map extId (exts b)) ->
   fst r = None /\ exts (snd r) = exts b ++ [ext] /\
   stateMachine (snd r) = stateMachine b /\ state (snd r) = state b) /\
  UseExtension (snd r) ext = (Some (AlreadyRegisteredError (extId ext)), snd r).
Proof.
  intros Hnd r. subst r.
  assert (Hex : forall l : list MessageExtender,
             existsb (fun registered => Nat.eqb (extId ext) (extId registered)) l
             = true <-> In (extId ext) (map extId l)).
  { intros l. rewrite existsb_exists, in_map_iff. split.
    - intros (x & Hx & He). apply Nat.eqb_eq in He. now exists x.
    - intros (x & He & Hx). exists x. split; [exact Hx|].
      now apply Nat.eqb_eq. }
  unfold UseExtension.
  destruct (existsb _ (exts b)) eqn:He.
  - simpl. apply Hex in He. split; [exact Hnd|]. split; [reflexivity|].
    split; [intros Hn; contradiction|].
    now rewrite (proj2 (Hex (exts b)) He).
  - assert (Hn : ~ In (extId ext) (map extId (exts b))).
    { intros Hin. apply Hex in Hin. congruence. }
    simpl. split; [|split; [intros Hin; contradiction|split]].
    + rewrite map_app. simpl.
      apply NoDup_app. split; [exact Hnd|]. split.
      * intros x Hx Hx'. apply list_elem_of_In in Hx, Hx'.
        destruct Hx' as [<-|[]]. contradiction.
      * apply NoDup_singleton.
    + intros _. repeat split.
    + assert (Hin : In (extId ext) (map extId (exts b ++ [ext]))).
      { rewrite map_app. apply in_or_app. right. now left. }
      now rewrite (proj2 (Hex _) Hin).
Qed.

End ProtocolClientCalls.

(** ** The long-polling transport: what is sent and what comes back *)

Section HttpRoundTrip.
Import BayeuxTransportHttp.
Variable jsonEncode : list Message -> error + bytes.
Variable jsonDecode : bytes -> error + list Message.
Variable NewRequestWithContext : string -> string -> bytes -> error + Request.

Local Abbreviation request :=
  (BayeuxTransportHttp.request jsonEncode jsonDecode NewRequestWithContext).

(** X7. What [request] makes of an answer of the HTTP client, once the
    batch is encoded and the request built.  A 200 response whose body
    decodes gives the decoded batch without error; a 200 response whose
    body cannot be read or decoded gives that very error, not a
    BadResponse; a response with another status whose body cannot be
    read gives a BadResponse without body; and a response that comes
    together with an error of the client gives a BadResponse with the
    status of that response and no body, the client's error being
    dropped. *)
Theorem http_request_replies
    (t : BayeuxTransportHttp.t) (ms : list Message) (buf : bytes)
    (req : Request) (r : Response) :
  jsonEncode ms = inr buf ->
  NewRequestWithContext "POST" (serverAddress t) buf = inr req ->
  (Do t (setHeaders req) = (Some r, None) -> StatusCode r = 200 ->
   forall body,
     Body r = inr body ->
     request t ms =
     match jsonDecode body with
     | inl err => Returned ([], Some err)
     | inr messages => Returned (messages, None)
     end) /\
  (Do t (setHeaders req) = (Some r, None) -> StatusCode r = 200 ->
   forall err, Body r = inl err -> request t ms = Returned ([], Some err)) /\
  (Do t (setHeaders req) = (Some r, None) -> StatusCode r <> 200 ->
   forall err,
     Body r = inl err ->
     request t ms =
     Returned ([], Some (BadResponseError (StatusCode r) (Status r) None))) /\
  (forall err,
      Do t (setHeaders req) = (Some r, Some err) ->
      request t ms =
      Returned ([], Some (BadResponseError (StatusCode r) (Status r) None))).
Proof.
  intros Henc Hreq. unfold BayeuxTransportHttp.request, parseResponse.
  rewrite Henc, Hreq. split; [|split; [|split]].
  - intros Hdo Hcode body Hbody. rewrite Hdo, Hbody.
    rewrite bool_decide_eq_false_2 by (rewrite Hcode; tauto).
    now destruct (jsonDecode body).
  - intros Hdo Hcode err Hbody. rewrite Hdo, Hbody.
    now rewrite bool_decide_eq_false_2 by (rewrite Hcode; tauto).
  - intros Hdo Hcode err Hbody. rewrite Hdo, Hbody.
    now rewrite bool_decide_eq_true_2 by assumption.
  - intros err Hdo. now rewrite Hdo.
Qed.

(** X8. [request] consults the HTTP client at most once, with the
    request built for a POST to the server address over the encoded
    batch, to which it adds the JSON content-type and accept headers
    after the headers the request came with.  When the batch cannot be
    encoded or the request cannot be built, it returns that error
    whatever the HTTP client would do. *)
Theorem http_request_sends_one_post
    (t t' : BayeuxTransportHttp.t) (ms : list Message) :
  serverAddress t' = serverAddress t ->
  (forall err, jsonEncode ms = inl err ->
               request t ms = Returned ([], Some err)) /\
  (forall buf err,
      jsonEncode ms = inr buf ->
      NewRequestWithContext "POST" (serverAddress t) buf = inl err ->
      request t ms = Returned ([], Some err)) /\
  (forall buf req,
      jsonEncode ms = inr buf ->
      NewRequestWithContext "POST" (serverAddress t) buf = inr req ->
      let posted :=
        mkRequest (method req) (url req) (body req)
          (header req ++ [("Content-Type", "application/json");
                          ("Accept", "application/json")]) in
      (Do t' posted = Do t posted -> request t' ms = request t ms)).
Proof.
  intros Haddr. unfold BayeuxTransportHttp.request. rewrite Haddr.
  split; [|split].
  - intros err ->. reflexivity.
  - intros buf err -> ->. reflexivity.
  - intros buf req Hb Hr. cbv zeta. intros Hdo.
    rewrite Hb, Hr. unfold setHeaders. now rewrite Hdo.
Qed.

End HttpRoundTrip.

(** ** The websocket transport: what its goroutines can reach *)

Section WebsocketReachability.
Import BayeuxTransportWebsocket WebsocketListen.
Variable jsonUnmarshal : bytes -> error + list Message.

Local Abbreviation lstep := (WebsocketListen.lstep jsonUnmarshal).
Local Abbreviation lrun := (WebsocketListen.lrun jsonUnmarshal).

Lemma add1_range (n : Z) : 0 <= add1 n < 2 ^ 32.
Proof. unfold add1. apply Z.mod_pos_bound. reflexivity. Qed.

Lemma sound_linit : sound linit.
Proof.
  constructor; simpl; try reflexivity; try lia; try discriminate.
Qed.

Ltac close_sound :=
  repeat match goal with
         | Hn : negb ?x = _ |- _ => destruct x; simpl in Hn; try discriminate Hn
         end;
  repeat match goal with
         | Hd : bool_decide _ = true |- _ => apply bool_decide_eq_true_1 in Hd
         | Hd : bool_decide _ = false |- _ => apply bool_decide_eq_false_1 in Hd
         end;
  constructor; simpl in *; auto; rewrite ?length_app; simpl;
  try assumption; try reflexivity; try tauto; try lia; try congruence;
  try (intros; congruence); try (eexists; reflexivity);
  try apply add1_range.

Lemma sound_lstep (a : laction) (l l' : lsys) :
  sound l -> lstep a l = Some l' -> sound l'.
Proof.
  intros [Hr Hc Ho Hb Hrc Hpc Hq Hl] Hstep.
  destruct l as [[[c [k b cl] n rdy] q r e w] p]. simpl in *. subst k cl.
  destruct a as [i|i]; simpl in Hstep.
  - cbv [reqStep transport_ req rd errChan written withReq recv] in Hstep.
    destruct q, i; simpl in Hstep;
      repeat (case_match; simplify_eq); simplify_eq; close_sound.
  - unfold listenStep in Hstep. simpl in Hstep.
    destruct p, i; simplify_eq.
    + cbv [rdStep transport_ req rd errChan written withRd send] in Hstep.
      destruct r, i; simpl in Hstep;
        repeat (case_match; simplify_eq); simplify_eq; simpl in *;
        try close_sound.
    + close_sound.
    + destruct Hl as [err ->]. close_sound.
Qed.

Lemma sound_lrun (acts : list laction) :
  forall l l', sound l -> lrun acts l = Some l' -> sound l'.
Proof.
  induction acts as [|a acts IH]; intros l l' Hs Hrun; simpl in Hrun.
  - now injection Hrun as <-.
  - destruct (lstep a l) as [l1|] eqn:Hstep; [|discriminate Hrun].
    exact (IH _ _ (sound_lstep _ _ _ Hs Hstep) Hrun).
Qed.

Lemma lrun_app (xs ys : list laction) (l : lsys) :
  lrun (xs ++ ys) l =
  match lrun xs l with Some l' => lrun ys l' | None => None end.
Proof.
  revert l. induction xs as [|a xs IH]; intros l; simpl; [reflexivity|].
  destruct (lstep a l); [apply IH|reflexivity].
Qed.

(** X9. However a caller of [request] and [listen] interleave from the
    start, the counter of outstanding requests stays within the range
    of an unsigned 32-bit number (the decrement never takes it below
    zero), and the reply buffer stays open with its capacity of 100 and
    at most 100 frames in it. *)
Theorem websocket_counter_and_buffer_bounds (acts : list laction) (l : lsys) :
  lrun acts linit = Some l ->
  0 <= openRequest (transport_ (inner l)) < 2 ^ 32 /\
  cap (msgBuffer (transport_ (inner l))) = 100%nat /\
  closed (msgBuffer (transport_ (inner l))) = false /\
  (length (buf (msgBuffer (transport_ (inner l)))) <= 100)%nat.
Proof.
  intros Hrun. destruct (sound_lrun _ _ _ sound_linit Hrun).
  repeat split; assumption || lia.
Qed.

(** X10. However a caller of [request] and [listen] interleave from the
    start, the ready flag is set only while [listen] is inside a read
    loop that has dialled, and then the connection is not nil; a caller
    that got past the ready check therefore never writes to a nil
    connection, although the loop may have left in the meantime. *)
Theorem websocket_ready_means_dialled (acts : list laction) (l : lsys) :
  lrun acts linit = Some l ->
  (ready (transport_ (inner l)) = true ->
   conn (transport_ (inner l)) = true /\ ls l = LReadLoop /\
   rd (inner l) <> RDial) /\
  (forall msg, req (inner l) = QWriteJSON msg ->
               conn (transport_ (inner l)) = true).
Proof.
  intros Hrun.
  destruct (sound_lrun _ _ _ sound_linit Hrun)
    as [_ _ _ _ Hrc Hpc Hq Hl].
  split.
  - intros Hready. split; [now apply Hrc|]. split.
    + destruct (ls l) as [|err| |]; [reflexivity|..].
      * rewrite Hl in Hpc. congruence.
      * destruct Hl as [err Hl]. rewrite Hl in Hpc. congruence.
      * rewrite Hl in Hpc. congruence.
    + intros Hd. rewrite Hd in Hpc. congruence.
  - intros msg Hmsg. now rewrite Hmsg in Hq.
Qed.

Lemma lstep_returned (a : laction) (l l' : lsys) :
  lstep a l = Some l' -> ls l' = LReturned ->
  (ls l = LReturned /\ isReq a = true) \/ a = LListen (InReader Cancelled).
Proof.
  intros Hstep Hret. destruct a as [i|i]; simpl in Hstep.
  - destruct (reqStep jsonUnmarshal i (inner l)); simplify_eq.
    left. now split.
  - right. unfold listenStep in Hstep.
    destruct (ls l), i; simplify_eq.
    destruct l as [[t q r e w] p]. simpl in *.
    cbv [rdStep transport_ req rd errChan written withRd send] in Hstep.
    destruct r, i; simpl in Hstep;
      repeat (case_match; simplify_eq); simplify_eq; simpl in *;
      try discriminate Hret; reflexivity.
Qed.

(** X11. [listen] returns only when its read loop found the context
    cancelled at the top of its loop: in any interleaving from the start
    after which [listen] has returned, that observation is the last
    action [listen] took, and the ready flag is down.  A failed dial or
    a failed read never ends [listen]. *)
Theorem listen_returns_only_on_cancel (acts : list laction) (l : lsys) :
  lrun acts linit = Some l -> ls l = LReturned ->
  (exists pre post,
      acts = pre ++ LListen (InReader Cancelled) :: post /\
      forallb isReq post = true) /\
  ready (transport_ (inner l)) = false.
Proof.
  intros Hrun Hret. split.
  - clear - Hrun Hret. revert l Hrun Hret.
    induction acts as [|a acts IH] using rev_ind; intros l Hrun Hret.
    + simpl in Hrun. injection Hrun as <-. discriminate Hret.
    + rewrite lrun_app in Hrun.
      destruct (lrun acts linit) as [l1|] eqn:Hpre; [|discriminate Hrun].
      simpl in Hrun.
      destruct (lstep a l1) as [l2|] eqn:Hstep; [|discriminate Hrun].
      injection Hrun as ->.
      destruct (lstep_returned _ _ _ Hstep Hret) as [[Hl1 Ha]| ->].
      * destruct (IH l1 eq_refl Hl1) as (pre & post & -> & Hpost).
        exists pre, (post ++ [a]). split.
        -- now rewrite <- app_assoc.
        -- rewrite forallb_app, Hpost. simpl. now rewrite Ha.
      * exists acts, []. split; reflexivity.
  - destruct (sound_lrun _ _ _ sound_linit Hrun)
      as [_ _ _ _ _ Hpc _ Hl].
    rewrite Hret in Hl. now rewrite Hl in Hpc.
Qed.

End WebsocketReachability.

(** ** The websocket transport: frames that do not reach the caller *)

Section WebsocketLostFrames.
Import BayeuxTransportWebsocket.
Variable jsonUnmarshal : bytes -> error + list Message.

Local Abbreviation run := (BayeuxTransportWebsocket.run jsonUnmarshal).

(** X12. A reply that arrives after the caller wrote its request and
    before it added its unit to the counter finds the counter at zero:
    it goes to the error channel as unrequested, and the caller then
    waits on an empty buffer with its unit still on the counter. *)
Theorem early_reply_is_discarded (s : sys) (raw : bytes) :
  req s = QAdd -> rd s = RRead ->
  openRequest (transport_ s) = 0 ->
  buf (msgBuffer (transport_ s)) = [] ->
  closed (msgBuffer (transport_ s)) = false ->
  exists s',
    run [Rd (Frame TextMessage raw); Rd Tau; Rd Receiving; Req Tau] s = Some s' /\
    waiting s' /\ rd s' = RRead /\
    errChan s' = errChan s ++ [wsErrorUndelivered] /\
    openRequest (transport_ s') = 1 /\
    written s' = written s.
Proof.
  intros Hq Hrd Hn Hb Hc.
  destruct s as [[c [k b cl] n rdy] q r e w]. simpl in *. subst.
  cbn. rewrite (bool_decide_eq_false_2 (TextMessage <> TextMessage)) by tauto.
  cbn. eexists. split; [reflexivity|]. repeat split.
Qed.

(** X13. A frame that is not a text frame is reported on the error
    channel as unsupported and changes nothing else: the counter keeps
    its units and the buffer its frames, so a caller that waits keeps
    waiting. *)
Theorem non_text_frame_is_reported (s : sys) (messageType : Z) (raw : bytes) :
  rd s = RRead -> messageType <> TextMessage ->
  run [Rd (Frame messageType raw); Rd Receiving] s =
  Some (mkSys (transport_ s) (req s) RRead
          (errChan s ++ [wsErrorUnsupported]) (written s)).
Proof.
  intros Hrd Hmt. destruct s as [t q r e w]. simpl in *. subst.
  cbn. now rewrite (bool_decide_eq_true_2 _ Hmt).
Qed.

End WebsocketLostFrames.

(** ** The session loop: delivery of a connect reply *)

Section ConnectReplyRuns.
Context {P : Type}.
Import Client ClientRuns.

(** All messages of a batch are on one channel. *)
Local Abbreviation uniform lc b := (forall x : Message, In x b -> mChannel x = lc).









End ConnectReplyRuns.

(** ** The session loop: requests, triggers and advice *)

Section SessionLoopTurns.
Context {P : Type} `{ProtocolClient P}.
Import Client ClientRuns.

(** X15. A subscribe turn takes every request queued at that moment
    and issues one protocol Subscribe for all their channels, those
    queued behind the first one in order and the first one last; the
    queue is left empty.  When that call fails, nothing is registered
    and the requests are gone: the error goes to the error stream and
    the loop goes on if the ignore predicate accepts it, and ends the
    loop otherwise.  When it succeeds the requests are registered in that
    same order and a connect trigger is queued. *)
Theorem subscribe_turn_coalesces
    (w : world P) (first : subscriptionRequest)
    (rest : list subscriptionRequest) (k : nat) :
  subscribeRequestChannel (self w) = mkChan k (first :: rest) false ->
  let r := pSubscribe (client (self w)) (map subscription (rest ++ [first])) in
  let c1 :=
    setClient (setSubscribeRequestChannel (self w) (mkChan k [] false)) (snd r) in
  subscriptions c1 = subscriptions (self w) /\
  (forall err,
      snd (fst r) = Some err -> ignoreError (self w) err = true ->
      pollTurn w caseSubscribe = Some (Continue (sendError (setSelf w c1) err))) /\
  (forall err,
      snd (fst r) = Some err -> ignoreError (self w) err = false ->
      pollTurn w caseSubscribe = Some (ReturnErr err (setSelf w c1))) /\
  (snd (fst r) = None ->
   pollTurn w caseSubscribe =
   Some (match addSubscriptions (setSelf w c1) (rest ++ [first]) with
         | (Some err, w2) => ReturnErr err w2
         | (None, w2) => afterEnqueue w2
         end)).
Proof.
  intros Hq r c1. subst r c1. cbn [pollTurn].
  unfold recv, getSubscriptionRequests, drain. rewrite Hq. simpl.
  rewrite map_app. simpl.
  destruct (pSubscribe _ _) as [[ms [e|]] p]; simpl.
  - split; [reflexivity|]. split; [|split].
    + intros err [= <-] Hig. now rewrite Hig.
    + intros err [= <-] Hig. now rewrite Hig.
    + intros [=].
  - split; [reflexivity|]. split; [|split].
    + intros err [=].
    + intros err [=].
    + intros _. unfold setSelf, setClient, setSubscribeRequestChannel. simpl.
      now destruct (addSubscriptions _ _) as [[e|] w2].
Qed.

Lemma subscribeAll_fits (reqs : list subscriptionRequest) :
  forall (c : t P) (n : nat) (queued : list subscriptionRequest),
    subscribeRequestChannel c = mkChan n queued false ->
    (length queued + length reqs <= n)%nat ->
    subscribeAll c reqs =
    Returned (setSubscribeRequestChannel c (mkChan n (queued ++ reqs) false)).
Proof.
  induction reqs as [|[ch q] reqs IH]; intros c n queued Hq Hlen; simpl.
  - rewrite app_nil_r, <- Hq. now destruct c.
  - unfold Subscribe, send. rewrite Hq. simpl in *.
    rewrite bool_decide_eq_true_2 by lia.
    rewrite (IH _ n (queued ++ [mkSubscriptionRequest ch q])).
    + simpl. now rewrite <- app_assoc.
    + reflexivity.
    + rewrite length_app. simpl. lia.
Qed.

Lemma subscribeAll_overflows (reqs : list subscriptionRequest) :
  forall (c : t P) (n : nat) (queued : list subscriptionRequest),
    subscribeRequestChannel c = mkChan n queued false ->
    (length queued <= n < length queued + length reqs)%nat ->
    subscribeAll c reqs = Blocked.
Proof.
  induction reqs as [|[ch q] reqs IH]; intros c n queued Hq Hlen; simpl in *;
    [lia|].
  unfold Subscribe, send. rewrite Hq. simpl.
  case_bool_decide as Hroom; [|reflexivity].
  apply (IH _ n (queued ++ [mkSubscriptionRequest ch q])); [reflexivity|].
  rewrite length_app. simpl. lia.
Qed.

(** X16. Requests made through [Subscribe] while the loop takes no
    turn are queued in the order of the calls as long as the queue has
    room; the call that finds the queue full, the eleventh on a new
    client, blocks its caller. *)
Theorem Subscribe_queues_until_full
    (c : t P) (n : nat) (queued reqs : list subscriptionRequest) :
  subscribeRequestChannel c = mkChan n queued false ->
  (length queued <= n)%nat ->
  ((length queued + length reqs <= n)%nat ->
   subscribeAll c reqs =
   Returned (setSubscribeRequestChannel c (mkChan n (queued ++ reqs) false))) /\
  ((n < length queued + length reqs)%nat -> subscribeAll c reqs = Blocked).
Proof.
  intros Hq Hlen. split; intros Hn.
  - now apply subscribeAll_fits.
  - apply (subscribeAll_overflows reqs c n queued Hq). lia.
Qed.

Lemma addSubscriptions_keeps (reqs : list subscriptionRequest) :
  forall (w w' : world P) (o : option error),
    addSubscriptions w reqs = (o, w') ->
    (forall ch q, subscriptions (self w) !! ch = Some q ->
                  subscriptions (self w') !! ch = Some q) /\
    (o = None ->
     forall rq, In rq reqs ->
                is_Some (subscriptions (self w') !! subscription rq)).
Proof.
  induction reqs as [|rq reqs IH]; intros w w' o Ha; simpl in Ha.
  - injection Ha as <- <-. split; [auto|]. intros _ rq [].
  - unfold subscriptionsMap.Add in Ha.
    destruct (subscriptions (self w) !! subscription rq) as [q0|] eqn:Hl.
    + destruct (ignoreError (self w) _).
      * destruct (IH _ _ _ Ha) as [Hk Hr]. split; [exact Hk|].
        intros Ho x [<-|Hx]; [|now apply Hr].
        exists q0. now apply Hk.
      * injection Ha as <- <-. split; [auto|]. intros [=].
    + destruct (IH _ _ _ Ha) as [Hk Hr]. simpl in Hk. split.
      * intros ch q Hch. apply Hk.
        rewrite lookup_insert_ne; [exact Hch|]. congruence.
      * intros Ho x [<-|Hx]; [|now apply Hr].
        exists (msgChan rq). apply Hk. apply lookup_insert_eq.
Qed.

Lemma addSubscriptions_fresh (reqs : list subscriptionRequest) :
  forall (w : world P),
    (forall rq, In rq reqs -> subscriptions (self w) !! subscription rq = None) ->
    NoDup (map subscription reqs) ->
    exists w',
      addSubscriptions w reqs = (None, w') /\
      errors w' = errors w /\
      (forall rq, In rq reqs ->
                  subscriptions (self w') !! subscription rq = Some (msgChan rq)).
Proof.
  induction reqs as [|rq reqs IH]; intros w Hfree Hnd; simpl.
  - exists w. repeat split. intros rq [].
  - unfold subscriptionsMap.Add. rewrite (Hfree rq (or_introl eq_refl)).
    apply NoDup_cons in Hnd as [Hnotin Hnd].
    destruct (IH (setSelf w (setSubscriptions (self w)
                    (<[subscription rq := msgChan rq]> (subscriptions (self w))))))
      as (w' & Ha & He & Hreg).
    + intros x Hx. simpl. rewrite lookup_insert_ne.
      * apply Hfree. now right.
      * intros Heq. apply Hnotin. rewrite Heq.
        apply list_elem_of_In, in_map, Hx.
    + exact Hnd.
    + exists w'. split; [exact Ha|]. split; [exact He|].
      intros x [<-|Hx]; [|now apply Hreg].
      apply (proj1 (addSubscriptions_keeps _ _ _ _ Ha)). simpl.
      apply lookup_insert_eq.
Qed.

(** X17. The registration loop of the subscribe turn never replaces a
    queue that is registered: every channel keeps the queue it had.  When
    the loop ends without error every requested channel has a queue; and
    when the requested channels are distinct and were all free, each is
    registered with the queue of its own request and nothing is sent to
    the error stream. *)
Theorem registration_keeps_existing_queues
    (reqs : list subscriptionRequest) (w w' : world P) (o : option error) :
  addSubscriptions w reqs = (o, w') ->
  (forall ch q, subscriptions (self w) !! ch = Some q ->
                subscriptions (self w') !! ch = Some q) /\
  (o = None ->
   forall rq, In rq reqs ->
              is_Some (subscriptions (self w') !! subscription rq)) /\
  ((forall rq, In rq reqs -> subscriptions (self w) !! subscription rq = None) ->
   NoDup (map subscription reqs) ->
   o = None /\ errors w' = errors w /\
   forall rq, In rq reqs ->
              subscriptions (self w') !! subscription rq = Some (msgChan rq)).
Proof.
  intros Ha. destruct (addSubscriptions_keeps _ _ _ _ Ha) as [Hk Hr].
  split; [exact Hk|]. split; [exact Hr|].
  intros Hfree Hnd.
  destruct (addSubscriptions_fresh reqs w Hfree Hnd) as (w2 & Ha2 & He & Hreg).
  rewrite Ha in Ha2. injection Ha2 as -> ->. auto.
Qed.

Lemma lookup_fold_Remove (channels : list Channel) :
  forall (m : gmap Channel chanRef) (ch : Channel),
    (In ch channels -> fold_left subscriptionsMap.Remove channels m !! ch = None) /\
    (~ In ch channels ->
     fold_left subscriptionsMap.Remove channels m !! ch = m !! ch).
Proof.
  induction channels as [|x channels IH]; intros m ch; simpl.
  - split; [intros []|reflexivity].
  - destruct (IH (subscriptionsMap.Remove m x) ch) as [Hin Hout].
    unfold subscriptionsMap.Remove in *. split.
    + intros [->|Hch].
      * destruct (in_dec String.string_dec ch channels) as [Hd|Hd];
          [now apply Hin|].
        rewrite (Hout Hd). apply lookup_delete_eq.
      * now apply Hin.
    + intros Hn. rewrite Hout by tauto.
      apply lookup_delete_ne. intros ->. apply Hn. now left.
Qed.

(** X18. An unsubscribe turn takes every channel queued at that moment
    and issues one protocol Unsubscribe for all of them.  When the call
    succeeds, exactly those channels lose their queue and every other
    registration stays; no connect trigger is queued.  When it fails, no
    registration changes. *)
Theorem unsubscribe_turn_removes
    (w : world P) (first : Channel) (rest : list Channel) (k : nat) :
  unsubscribeRequestChannel (self w) = mkChan k (first :: rest) false ->
  let r := pUnsubscribe (client (self w)) (rest ++ [first]) in
  exists w',
    (pollTurn w caseUnsubscribe = Some (Continue w') \/
     exists err, snd (fst r) = Some err /\
                 pollTurn w caseUnsubscribe = Some (ReturnErr err w')) /\
    client (self w') = snd r /\
    unsubscribeRequestChannel (self w') = mkChan k [] false /\
    connectRequestChannel (self w') = connectRequestChannel (self w) /\
    (snd (fst r) = None ->
     errors w' = errors w /\
     forall ch,
       (In ch (rest ++ [first]) -> subscriptions (self w') !! ch = None) /\
       (~ In ch (rest ++ [first]) ->
        subscriptions (self w') !! ch = subscriptions (self w) !! ch)) /\
    (forall err, snd (fst r) = Some err ->
                 subscriptions (self w') = subscriptions (self w)).
Proof.
  intros Hq r. subst r. cbn [pollTurn].
  unfold recv, getUnsubscriptionRequests, drain. rewrite Hq. simpl.
  destruct (pUnsubscribe _ _) as [[ms [e|]] p]; simpl.
  - destruct (ignoreError (self w) e); eexists; (split; [eauto|]);
      repeat split; intros; discriminate.
  - eexists. split; [left; reflexivity|]. simpl.
    repeat split; try discriminate.
    + apply (lookup_fold_Remove (rest ++ [first])).
    + apply (lookup_fold_Remove (rest ++ [first])).
Qed.

Lemma Disconnect_returned_closed (c : t P) (r : option error * t P) :
  Disconnect c = Returned r -> queuesClosed (snd r).
Proof.
  unfold Disconnect. destruct (pDisconnect (client c)) as [[ms err] p].
  unfold close. simpl.
  destruct (closed (subscribeRequestChannel c)); [discriminate|].
  destruct (closed (unsubscribeRequestChannel c)); [discriminate|].
  destruct (closed (connectRequestChannel c)); [discriminate|].
  destruct (closed (connectMessageChannel c)); [discriminate|].
  destruct (closed (handshakeRequestChannel c)); [discriminate|].
  intros [= <-]. repeat split.
Qed.

(** X19. [enqueueConnectRequest] never blocks.  On the queue of a new
    client it leaves exactly one trigger queued, whether or not one was
    queued before, so calling it again changes nothing.  Once
    [Disconnect] has returned it panics, the queue being closed: a
    delayed trigger that fires after [Disconnect] brings the program
    down. *)
Theorem enqueueConnectRequest_after_Disconnect (c : t P) :
  enqueueConnectRequest c <> Blocked /\
  (closed (connectRequestChannel c) = false ->
   cap (connectRequestChannel c) = 1%nat ->
   (length (buf (connectRequestChannel c)) <= 1)%nat ->
   exists c',
     enqueueConnectRequest c = Returned c' /\
     buf (connectRequestChannel c') = [tt] /\
     enqueueConnectRequest c' = Returned c') /\
  (forall r, Disconnect c = Returned r ->
             enqueueConnectRequest (snd r) = Panicked "send on closed channel").
Proof.
  split; [|split].
  - unfold enqueueConnectRequest. now destruct (send _ _).
  - intros Hc Hcap Hlen. unfold enqueueConnectRequest, send.
    destruct (connectRequestChannel c) as [k b cl] eqn:Hq. simpl in *. subst.
    destruct b as [|[] [|y b]]; simpl in Hlen; [| |lia].
    + eexists. split; [reflexivity|]. split; reflexivity.
    + eexists. split; [reflexivity|]. simpl. rewrite Hq. split; reflexivity.
  - intros r Hr.
    destruct (Disconnect_returned_closed c r Hr) as (_ & _ & Hcl & _).
    unfold enqueueConnectRequest, send. now rewrite Hcl.
Qed.

(** X20. When no case of the select is ready the default turn queues
    one connect trigger and changes nothing else; after it the
    connect-request case is ready and the default case is not.  This is
    what restarts the connect cycle of an idle loop. *)
Theorem default_turn_queues_connect (w : world P) :
  ready w caseDefault = true ->
  (0 < cap (connectRequestChannel (self w)))%nat ->
  pollTurn w caseDefault =
  Some (Continue
          (setSelf w
             (setConnectRequestChannel (self w)
                (mkChan (cap (connectRequestChannel (self w))) [tt] false)))) /\
  forall w', pollTurn w caseDefault = Some (Continue w') ->
             ready w' caseConnectRequest = true /\
             ready w' caseDefault = false.
Proof.
  intros Hready Hcap.
  assert (Hturn :
    pollTurn w caseDefault =
    Some (Continue
            (setSelf w
               (setConnectRequestChannel (self w)
                  (mkChan (cap (connectRequestChannel (self w))) [tt] false))))).
  { cbn [pollTurn]. rewrite Hready.
    unfold ready in Hready. apply negb_true_iff in Hready.
    repeat (apply orb_false_iff in Hready as [Hready ?]).
    unfold afterEnqueue, enqueueConnectRequest, send.
    destruct (connectRequestChannel (self w)) as [k b cl]. simpl in *.
    unfold canRecv in *. simpl in *.
    destruct b; [|discriminate]. subst cl. simpl.
    now rewrite bool_decide_eq_true_2 by lia. }
  split; [exact Hturn|].
  intros w' Hw'. rewrite Hturn in Hw'. injection Hw' as <-.
  split; [reflexivity|].
  unfold ready. simpl. now rewrite !orb_true_r.
Qed.

(** X21. Handling the messages of a connect reply in which no message
    advises a handshake always runs to the end: it schedules one delayed
    connect trigger per message, with the interval of that message's
    advice and in the order of the messages, and changes nothing else.
    When some message advises a handshake, the loop sends a handshake
    trigger on its own handshake queue: on the unbuffered queue that
    [NewClient] makes the send blocks for ever, the loop being the only
    receiver of that queue, and on a closed queue, as [Disconnect]
    leaves it, the send panics. *)
Theorem advice_schedules_one_trigger_per_message (ms : list Message) :
  forall w : world P,
    (existsb (fun m => ShouldHandshake (mAdvice m)) ms = false ->
     handleAdvice w ms =
     Returned
       (mkWorld (self w) (ctx w) (errors w) (userQueues w)
          (timers w ++ map (fun m => IntervalAsDuration (mAdvice m)) ms))) /\
    (cap (handshakeRequestChannel (self w)) = 0%nat ->
     closed (handshakeRequestChannel (self w)) = false ->
     existsb (fun m => ShouldHandshake (mAdvice m)) ms = true ->
     handleAdvice w ms = Blocked) /\
    (closed (handshakeRequestChannel (self w)) = true ->
     existsb (fun m => ShouldHandshake (mAdvice m)) ms = true ->
     handleAdvice w ms = Panicked "send on closed channel").
Proof.
  induction ms as [|m ms IH]; intros w; simpl.
  - split; [|split; intros; discriminate].
    intros _. rewrite app_nil_r. now destruct w.
  - destruct (IH (addTimer w (IntervalAsDuration (mAdvice m))))
      as (IHr & IHb & IHp). simpl in *.
    destruct (ShouldHandshake (mAdvice m)) eqn:Hs; simpl.
    + split; [intros; discriminate|]. unfold send. split.
      * intros Hcap Hcl _. rewrite Hcl, Hcap. reflexivity.
      * intros Hcl _. now rewrite Hcl.
    + split; [|split].
      * intros Hno. rewrite (IHr Hno), <- app_assoc. reflexivity.
      * exact IHb.
      * exact IHp.
Qed.

(** X22. Once [Disconnect] has returned, every receive case of the
    loop on one of the five queues is ready, since a closed queue always
    yields a value, so the default case is never taken again; the
    shutdown case is as ready as before; and a subscribe or unsubscribe
    turn never ends, its drain of the closed queue receiving zero values
    for ever. *)
Theorem loop_after_Disconnect (c : t P) (r : option error * t P) (w : world P) :
  Disconnect c = Returned r -> self w = snd r ->
  ready w caseSubscribe = true /\ ready w caseUnsubscribe = true /\
  ready w caseHandshake = true /\ ready w caseConnectMessage = true /\
  ready w caseConnectRequest = true /\ ready w caseDefault = false /\
  canRecv (shutdown (self w)) = canRecv (shutdown c) /\
  (exists w', pollTurn w caseSubscribe = Some (Stuck w')) /\
  (exists w', pollTurn w caseUnsubscribe = Some (Stuck w')).
Proof.
  intros Hd Hself.
  pose proof (Disconnect_keeps_shutdown c r Hd) as Hsh.
  destruct (Disconnect_returned_closed c r Hd) as (C1 & C2 & C3 & C4 & C5).
  rewrite <- Hself in *.
  assert (Hcan : forall (A : Type) (q : chan A), closed q = true -> canRecv q = true).
  { intros A q Hq. unfold canRecv. now destruct (buf q). }
  unfold ready.
  rewrite (Hcan _ _ C1), (Hcan _ _ C2), (Hcan _ _ C3), (Hcan _ _ C4),
    (Hcan _ _ C5), Hsh.
  repeat (split; [reflexivity|]).
  split; [now rewrite !orb_true_r|]. split; [reflexivity|].
  split; cbn [pollTurn]; unfold recv, getSubscriptionRequests,
    getUnsubscriptionRequests, drain.
  - destruct (subscribeRequestChannel (self w)) as [k b cl]. simpl in C1.
    subst cl. destruct b; simpl; eexists; reflexivity.
  - destruct (unsubscribeRequestChannel (self w)) as [k b cl]. simpl in C2.
    subst cl. destruct b; simpl; eexists; reflexivity.
Qed.

End SessionLoopTurns.

(** ** The further properties at sample values *)

Import MoreSamples.

Lemma Connect_reply_verdict_witness :
  BayeuxClientT.notConnected connectedClient = false /\
  resume (BayeuxClientT.Connect connectedClient) ([connectRefused], None) =
    Ret (([connectRefused], Some (ConnectionFailedError ErrFailedToConnect)),
         connectedClient) /\
  resume (BayeuxClientT.Connect connectedClient) (threeEvents, None) =
    Ret ((threeEvents, None), connectedClient).
Proof.
  split; [reflexivity|]. split.
  - apply (Connect_reply_verdict connectedClient [connectRefused] eq_refl).
    exists connectRefused. repeat split. now left.
  - apply (Connect_reply_verdict connectedClient threeEvents eq_refl).
    intros m [<-|[<-|[<-|[]]]]; discriminate.
Defined.

Lemma Subscribe_reply_verdict_witness :
  BayeuxClientT.notConnected connectedClient = false /\
  resume (BayeuxClientT.Subscribe connectedClient ["/a"])
    ([] ++ subscribeRefused :: [], None) =
    Ret (([], Some (SubscriptionFailedError ["/a"] (SubscribeError "403::denied"))),
         connectedClient).
Proof.
  split; [reflexivity|].
  apply (proj1 (Subscribe_reply_verdict connectedClient ["/a"] [] []
                  subscribeRefused eq_refl)); [intros x []|reflexivity..].
Defined.

Lemma calls_leave_client_unchanged_witness :
  BayeuxClientT.callDisconnect <> BayeuxClientT.callHandshake /\
  snd (result (BayeuxClientT.perform connectedClient BayeuxClientT.callDisconnect)
         (server [])) = connectedClient.
Proof.
  split; [discriminate|].
  apply (calls_leave_client_unchanged connectedClient BayeuxClientT.callDisconnect
           (server [])).
  discriminate.
Defined.

Lemma failed_Handshake_is_not_undone_witness :
  snd (fst (result (BayeuxClientT.Handshake freshClient) offline)) <> None /\
  sent (BayeuxClientT.Handshake
          (snd (result (BayeuxClientT.Handshake freshClient) offline)))
    (server []) = [].
Proof.
  assert (Hfail : snd (fst (result (BayeuxClientT.Handshake freshClient) offline))
                  <> None) by discriminate.
  split; [exact Hfail|].
  apply (failed_Handshake_is_not_undone freshClient offline (server []) Hfail).
Defined.

Lemma Connect_after_Handshake_witness :
  (ConnectionStateMachine.ProcessEvent
     (BayeuxClientT.stateMachine freshClient) handshakeSent = inr CONNECTING /\
   mChannel handshakeOk = MetaHandshake /\ mSuccessful handshakeOk = true) /\
  BayeuxClientT.GetClientID
    (snd (result (BayeuxClientT.Handshake freshClient)
            (fun _ => ([handshakeOk], None)))) = "client-1".
Proof.
  split; [repeat split|].
  apply (Connect_after_Handshake freshClient CONNECTING handshakeOk
           eq_refl eq_refl eq_refl).
Defined.

Lemma UseExtension_no_duplicates_witness :
  NoDup (map extId (BayeuxClientT.exts freshClient)) /\
  BayeuxClientT.UseExtension
    (snd (BayeuxClientT.UseExtension freshClient tracing)) tracing =
  (Some (AlreadyRegisteredError 7),
   snd (BayeuxClientT.UseExtension freshClient tracing)).
Proof.
  assert (Hnd : NoDup (map extId (BayeuxClientT.exts freshClient)))
    by constructor.
  split; [exact Hnd|].
  apply (UseExtension_no_duplicates freshClient tracing Hnd).
Defined.

Lemma http_request_replies_witness :
  (noEncoder [] = inr [] /\
   plainRequest "POST" (BayeuxTransportHttp.serverAddress answering) [] =
     inr (BayeuxTransportHttp.mkRequest "POST" "https://example.com" [] [])) /\
  BayeuxTransportHttp.request noEncoder noCodec plainRequest answering [] =
    Returned ([], None).
Proof.
  split; [split; reflexivity|].
  apply (proj1 (http_request_replies noEncoder noCodec plainRequest answering
                  [] [] _ (BayeuxTransportHttp.mkResponse 200 "200 OK" (inr []))
                  eq_refl eq_refl) eq_refl eq_refl [] eq_refl).
Defined.

Lemma http_request_sends_one_post_witness :
  BayeuxTransportHttp.serverAddress unavailable =
    BayeuxTransportHttp.serverAddress answering /\
  BayeuxTransportHttp.request failingEncoder noCodec plainRequest answering [] =
    Returned ([], Some (ErrOther "unsupported value")).
Proof.
  split; [reflexivity|].
  apply (proj1 (http_request_sends_one_post failingEncoder noCodec
                  plainRequest answering unavailable [] eq_refl)).
  reflexivity.
Defined.

Lemma websocket_counter_and_buffer_bounds_witness :
  exists l,
    WebsocketListen.lrun noCodec dialThenCancel WebsocketListen.linit = Some l /\
    0 <= BayeuxTransportWebsocket.openRequest
           (BayeuxTransportWebsocket.transport_ (WebsocketListen.inner l))
      < 2 ^ 32.
Proof.
  eexists. split; [reflexivity|].
  apply (websocket_counter_and_buffer_bounds noCodec dialThenCancel _ eq_refl).
Defined.

Lemma websocket_ready_means_dialled_witness :
  exists l,
    WebsocketListen.lrun noCodec (firstn 1 dialThenCancel)
      WebsocketListen.linit = Some l /\
    BayeuxTransportWebsocket.ready
      (BayeuxTransportWebsocket.transport_ (WebsocketListen.inner l)) = true /\
    BayeuxTransportWebsocket.conn
      (BayeuxTransportWebsocket.transport_ (WebsocketListen.inner l)) = true.
Proof.
  eexists. split; [reflexivity|]. split; [reflexivity|].
  apply (proj1 (websocket_ready_means_dialled noCodec (firstn 1 dialThenCancel)
                  _ eq_refl)).
  reflexivity.
Defined.

Lemma listen_returns_only_on_cancel_witness :
  exists l,
    WebsocketListen.lrun noCodec dialThenCancel WebsocketListen.linit = Some l /\
    WebsocketListen.ls l = WebsocketListen.LReturned /\
    BayeuxTransportWebsocket.ready
      (BayeuxTransportWebsocket.transport_ (WebsocketListen.inner l)) = false.
Proof.
  eexists. split; [reflexivity|]. split; [reflexivity|].
  apply (listen_returns_only_on_cancel noCodec dialThenCancel _ eq_refl eq_refl).
Defined.

Lemma early_reply_is_discarded_witness :
  (BayeuxTransportWebsocket.req wroteRequest = BayeuxTransportWebsocket.QAdd /\
   BayeuxTransportWebsocket.rd wroteRequest = BayeuxTransportWebsocket.RRead /\
   BayeuxTransportWebsocket.openRequest
     (BayeuxTransportWebsocket.transport_ wroteRequest) = 0) /\
  exists s',
    BayeuxTransportWebsocket.run noCodec
      [BayeuxTransportWebsocket.Rd
         (BayeuxTransportWebsocket.Frame BayeuxTransportWebsocket.TextMessage []);
       BayeuxTransportWebsocket.Rd BayeuxTransportWebsocket.Tau;
       BayeuxTransportWebsocket.Rd BayeuxTransportWebsocket.Receiving;
       BayeuxTransportWebsocket.Req BayeuxTransportWebsocket.Tau]
      wroteRequest = Some s' /\
    BayeuxTransportWebsocket.waiting s'.
Proof.
  split; [repeat split|].
  destruct (early_reply_is_discarded noCodec wroteRequest []
              eq_refl eq_refl eq_refl eq_refl eq_refl) as (s' & Hrun & Hw & _).
  exists s'. split; assumption.
Defined.

Lemma non_text_frame_is_reported_witness :
  (BayeuxTransportWebsocket.rd awaitingReply = BayeuxTransportWebsocket.RRead /\
   BayeuxTransportWebsocket.BinaryMessage <> BayeuxTransportWebsocket.TextMessage) /\
  BayeuxTransportWebsocket.run noCodec
    [BayeuxTransportWebsocket.Rd
       (BayeuxTransportWebsocket.Frame BayeuxTransportWebsocket.BinaryMessage []);
     BayeuxTransportWebsocket.Rd BayeuxTransportWebsocket.Receiving]
    awaitingReply =
  Some (BayeuxTransportWebsocket.mkSys
          (BayeuxTransportWebsocket.transport_ awaitingReply)
          (BayeuxTransportWebsocket.req awaitingReply)
          BayeuxTransportWebsocket.RRead
          (BayeuxTransportWebsocket.errChan awaitingReply ++
           [BayeuxTransportWebsocket.wsErrorUnsupported])
          (BayeuxTransportWebsocket.written awaitingReply)).
Proof.
  assert (Hne : BayeuxTransportWebsocket.BinaryMessage <>
                BayeuxTransportWebsocket.TextMessage) by discriminate.
  split; [split; [reflexivity|exact Hne]|].
  apply (non_text_frame_is_reported noCodec awaitingReply _ [] eq_refl Hne).
Defined.


Lemma subscribe_turn_coalesces_witness :
  Client.subscribeRequestChannel (Client.self withRequests) =
    mkChan 10 (forC :: [forD]) false /\
  Client.subscriptions
    (Client.setClient
       (Client.setSubscribeRequestChannel (Client.self withRequests)
          (mkChan 10 [] false))
       (snd (pSubscribe (Client.client (Client.self withRequests))
               (map Client.subscription ([forD] ++ [forC]))))) =
  Client.subscriptions (Client.self withRequests).
Proof.
  split; [reflexivity|].
  apply (subscribe_turn_coalesces withRequests forC [forD] 10 eq_refl).
Defined.

Lemma Subscribe_queues_until_full_witness :
  (Client.subscribeRequestChannel (Client.self idle) = mkChan 10 [] false /\
   (length (@nil Client.subscriptionRequest) <= 10)%nat) /\
  ClientRuns.subscribeAll (Client.self idle) (repeat forC 11) = Blocked.
Proof.
  split; [split; [reflexivity|simpl; lia]|].
  apply (Subscribe_queues_until_full (Client.self idle) 10 [] (repeat forC 11)
           eq_refl).
  - simpl. lia.
  - simpl. lia.
Defined.

Lemma registration_keeps_existing_queues_witness :
  exists o w',
    Client.addSubscriptions idle [forC; forD] = (o, w') /\
    Client.subscriptions (Client.self w') !! "/a" = Some (userChan 0).
Proof.
  eexists _, _. split; [reflexivity|].
  apply (proj1 (registration_keeps_existing_queues [forC; forD] idle _ _ eq_refl)).
  reflexivity.
Defined.

Lemma unsubscribe_turn_removes_witness :
  Client.unsubscribeRequestChannel (Client.self withRemovals) =
    mkChan 10 ("/a" :: ["/b"]) false /\
  exists w',
    Client.pollTurn withRemovals Client.caseUnsubscribe =
      Some (Client.Continue w') /\
    Client.subscriptions (Client.self w') !! "/a" = None /\
    Client.subscriptions (Client.self w') !! MetaConnect =
      Some connectMessageChannelRef.
Proof.
  split; [reflexivity|].
  destruct (unsubscribe_turn_removes withRemovals "/a" ["/b"] 10 eq_refl)
    as (w' & Hturn & _ & _ & _ & Hok & _).
  exists w'. destruct Hturn as [Hturn|(err & Herr & _)]; [|discriminate Herr].
  split; [exact Hturn|].
  destruct (Hok eq_refl) as [_ Hsub]. split.
  - apply (proj1 (Hsub "/a")). right; now left.
  - rewrite (proj2 (Hsub MetaConnect)); [reflexivity|].
    intros [Hx|[Hx|[]]]; discriminate.
Defined.

Lemma default_turn_queues_connect_witness :
  (Client.ready idle Client.caseDefault = true /\
   (0 < cap (Client.connectRequestChannel (Client.self idle)))%nat) /\
  Client.pollTurn idle Client.caseDefault =
  Some (Client.Continue
          (Client.setSelf idle
             (Client.setConnectRequestChannel (Client.self idle)
                (mkChan (cap (Client.connectRequestChannel (Client.self idle)))
                   [tt] false)))).
Proof.
  assert (Hcap : (0 < cap (Client.connectRequestChannel (Client.self idle)))%nat)
    by (simpl; lia).
  split; [split; [reflexivity|exact Hcap]|].
  apply (default_turn_queues_connect idle eq_refl Hcap).
Defined.

Lemma advice_schedules_one_trigger_per_message_witness :
  Client.handshakeRequestChannel (Client.self idle) = make 0 /\
  Client.handleAdvice idle threeEvents =
    Returned
      (Client.mkWorld (Client.self idle) None [] ∅
         (map (fun m => IntervalAsDuration (mAdvice m)) threeEvents)) /\
  Client.handleAdvice idle [event "/a" "1"; rehandshakeAdvice] = Blocked /\
  Client.handleAdvice
    (Client.setSelf idle
       (Client.setHandshakeRequestChannel (Client.self idle)
          (mkChan 0 [] true)))
    [event "/a" "1"; rehandshakeAdvice] = Panicked "send on closed channel".
Proof.
  split; [reflexivity|].
  split; [|split].
  - apply (advice_schedules_one_trigger_per_message threeEvents idle).
    reflexivity.
  - apply (advice_schedules_one_trigger_per_message
             [event "/a" "1"; rehandshakeAdvice] idle); reflexivity.
  - apply (advice_schedules_one_trigger_per_message
             [event "/a" "1"; rehandshakeAdvice]); reflexivity.
Defined.

Lemma loop_after_Disconnect_witness :
  exists r,
    Client.Disconnect (Client.self idle) = Returned r /\
    Client.ready (Client.setSelf idle (snd r)) Client.caseDefault = false /\
    exists w',
      Client.pollTurn (Client.setSelf idle (snd r)) Client.caseSubscribe =
      Some (Client.Stuck w').
Proof.
  eexists. split; [reflexivity|].
  pose proof (loop_after_Disconnect (Client.self idle) _
                (Client.setSelf idle _) eq_refl eq_refl)
    as (_ & _ & _ & _ & _ & Hd & _ & Hs & _).
  split; [exact Hd|exact Hs].
Defined.
